(** * Paperbook API: ownership policy and soft enable/disable lifecycle

    A shallow embedding of the user service ([UserService]), of the order
    update payload ([UpdateOrderPayload]) and of the shopping-cart controller
    ([ShoppingCartController]), followed by the properties of the
    ownership check and of the active/inactive lifecycle that the service
    methods implement.

    Conventions of the embedding:
    - an [async] method is a state-passing computation over the rows of the
      table it works on, resolving to a value or rejecting with an exception;
      a rejection keeps the rows as they are at the point of the [throw];
    - entity ids are integers ([Z]);
    - collaborators that the service receives by injection or inherits from
      the CRUD base class are fields of the service record. *)

From Stdlib Require Import ZArith List String Bool Lia.
Import ListNotations.
Open Scope string_scope.
Open Scope list_scope.
Open Scope Z_scope.

Set Implicit Arguments.

(** ** Roles and the identity of the caller *)

(** Modelled from the spec: [RolesEnum] (src/models/enums/roles.enum is not
    part of the sources); the identity's role is "one of a small closed set:
    Admin, Seller, User/Common". *)
Inductive RolesEnum : Type := Admin | Seller | User.

Definition RolesEnum_eqb (a b : RolesEnum) : bool :=
  match a, b with
  | Admin, Admin | Seller, Seller | User, User => true
  | _, _ => false
  end.

Module RequestUser.
(** Modelled from the spec: [RequestUser] (src/utils/type.shared is not
    part of the sources); the identity context carries an id and a role. *)
Record t : Type := Build { id : Z; roles : RolesEnum }.
End RequestUser.

(** Modelled from the spec: [isAdminUser] (src/utils/validations is not
    part of the sources); the caller is privileged when its role is Admin. *)
Definition isAdminUser (requestUser : RequestUser.t) : bool :=
  RolesEnum_eqb (RequestUser.roles requestUser) Admin.

(** ** Exceptions, promises *)

Inductive Exception : Type :=
| EntityNotFoundException (id : Z) (entity : option string)
| ForbiddenException
| EntityAlreadyDisabledException (id : Z) (entity : string)
| EntityAlreadyEnabledException (id : Z) (entity : string)
| TypeError.

Inductive Result (A : Type) : Type :=
| Resolved (a : A)
| Rejected (e : Exception).

Arguments Resolved {A} a.
Arguments Rejected {A} e.

(** A promise over a store [S]: the settled result and the store it leaves. *)
Definition Promise (S A : Type) : Type := S -> Result A * S.

Definition ret {S A : Type} (a : A) : Promise S A :=
  fun s => (Resolved a, s).

Definition throw {S A : Type} (e : Exception) : Promise S A :=
  fun s => (Rejected e, s).

Definition bind {S A B : Type} (c : Promise S A) (k : A -> Promise S B)
  : Promise S B :=
  fun s =>
    match c s with
    | (Resolved a, s') => k a s'
    | (Rejected e, s') => (Rejected e, s')
    end.

Declare Scope promise_scope.
Delimit Scope promise_scope with promise.
Notation "x <- c ;; k" := (bind c (fun x => k))
  (at level 100, c at next level, right associativity) : promise_scope.
Open Scope promise_scope.

(** ** The parsed CRUD request *)

Module CrudRequest.
Inductive SValue : Type :=
| VNum (n : Z)
| VBool (b : bool)
| VStr (s : string).

(** One condition [{ field: { operator: value } }] of [parsed.search.$and]. *)
Record SCondition : Type :=
  { field : string; operator : string; value : SValue }.

(** Only [parsed.search.$and] is read and written by the services. *)
Record t : Type := Build { parsed_search_and : list SCondition }.

(** [parsed.search = { $and: [...parsed.search.$and, { field: { $eq: v } }] }] *)
Definition andEq (crudRequest : t) (fld : string) (v : Z) : t :=
  {| parsed_search_and :=
       (parsed_search_and crudRequest
          ++ [ {| field := fld; operator := "$eq"; value := VNum v |} ])%list |}.
End CrudRequest.

(** ** Entities *)

(** Association list from column name to value, for the columns that are
    specific to an entity kind. [assign] is [Object.assign] on it. *)
Definition Columns : Type := list (string * string).

Fixpoint setColumn (k v : string) (cols : Columns) : Columns :=
  match cols with
  | [] => [(k, v)]
  | (k', v') :: rest =>
      if String.eqb k k' then (k, v) :: rest
      else (k', v') :: setColumn k v rest
  end.

Definition assign (target source : Columns) : Columns :=
  fold_left (fun acc kv => setColumn (fst kv) (snd kv) acc) source target.

Module CreateUserPayload.
(** Modelled from the spec: [CreateUserPayload] (../models/create-user.payload
    is not part of the sources). [create] reads [password] and [roles];
    the other fields of the payload are kept as columns. *)
Record t : Type :=
  Build { password : string; roles : option RolesEnum; columns : Columns }.
End CreateUserPayload.

Module UpdateUserPaylaod.
(** Modelled from the spec: [UpdateUserPaylaod] (../models/update-user.payload
    is not part of the sources): a field-level patch that "does not permit
    changing id, ownerId, or isActive", so it carries entity-specific
    columns only. *)
Record t : Type := Build { columns : Columns }.
End UpdateUserPaylaod.

Module UserEntity.
(** Modelled from the spec: [UserEntity] (../entities/user.entity is not
    part of the sources): the common resource shape ([id], [isActive]) with
    the fields the service reads ([password], [roles]) and the remaining
    columns. A user is its own owner: the service passes [entity.id] to the
    ownership check. *)
Record t : Type :=
  Build { id : Z; isActive : bool; password : string;
          roles : option RolesEnum; columns : Columns }.

Definition Table : Type := list t.

(** The partial entity given to the repository's update. *)
Record Partial : Type :=
  { p_id : option Z; p_isActive : option bool; p_password : option string;
    p_roles : option (option RolesEnum); p_columns : Columns }.

Definition orElse {A : Type} (o : option A) (d : A) : A :=
  match o with Some a => a | None => d end.

Definition patch (p : Partial) (e : t) : t :=
  {| id := orElse (p_id p) (id e);
     isActive := orElse (p_isActive p) (isActive e);
     password := orElse (p_password p) (password e);
     roles := orElse (p_roles p) (roles e);
     columns := assign (columns e) (p_columns p) |}.

(** [{ isActive: b }] *)
Definition isActivePartial (b : bool) : Partial :=
  {| p_id := None; p_isActive := Some b; p_password := None;
     p_roles := None; p_columns := [] |}.

(** An [UpdateUserPaylaod] seen as a partial entity. *)
Definition payloadPartial (payload : UpdateUserPaylaod.t) : Partial :=
  {| p_id := None; p_isActive := None; p_password := None;
     p_roles := None; p_columns := UpdateUserPaylaod.columns payload |}.

(** Modelled from the spec: the entity constructor (../entities/user.entity
    is not part of the sources) copies the payload into a new entity, as
    the other entity constructors of the repository do with
    [Object.assign(this, partial)]; [id] is not assigned yet and [isActive]
    takes its default [true]. *)
Definition new (payload : CreateUserPayload.t) : t :=
  {| id := 0; isActive := true;
     password := CreateUserPayload.password payload;
     roles := CreateUserPayload.roles payload;
     columns := CreateUserPayload.columns payload |}.

Definition withPassword (pw : string) (e : t) : t :=
  {| id := id e; isActive := isActive e; password := pw;
     roles := roles e; columns := columns e |}.

Definition withRoles (r : option RolesEnum) (e : t) : t :=
  {| id := id e; isActive := isActive e; password := password e;
     roles := r; columns := columns e |}.

Definition withId (i : Z) (e : t) : t :=
  {| id := i; isActive := isActive e; password := password e;
     roles := roles e; columns := columns e |}.

(** *** The active-record operations of the entity class, on the rows *)

(** The first row with the given id, if there is one. *)
Definition lookup (rows : Table) (userId : Z) : option t :=
  find (fun e => id e =? userId) rows.

(** A record is stored when a lookup by its id finds it. *)
Definition stored (rows : Table) (R : t) : Prop :=
  lookup rows (id R) = Some R.

(** [UserEntity.findOne({ id: userId })] *)
Definition findOne (userId : Z) : Promise Table (option t) :=
  fun rows => (Resolved (lookup rows userId), rows).

(** [UserEntity.update({ id: userId }, partial)] *)
Definition update (userId : Z) (p : Partial) : Promise Table unit :=
  fun rows =>
    (Resolved tt,
     map (fun e => if id e =? userId then patch p e else e) rows).

(** [UserEntity.delete({ id: userId })] *)
Definition delete (userId : Z) : Promise Table unit :=
  fun rows => (Resolved tt, filter (fun e => negb (id e =? userId)) rows).

(** Modelled from the spec: the id of a new row is "unique, generated on
    creation"; here, one more than the largest id of the table. *)
Definition generatedId (rows : Table) : Z :=
  1 + fold_right Z.max 0 (map id rows).

(** [entity.save()] of a new entity: the row is inserted under a generated
    id and the saved entity is returned. *)
Definition save (e : t) : Promise Table t :=
  fun rows =>
    let saved := withId (generatedId rows) e in
    (Resolved saved, rows ++ [saved]).
End UserEntity.

(** Modelled from the spec: the shape of the address and product entities
    (their entity files are not part of the sources): [id], [ownerId],
    [isActive]. *)
Module Resource.
Record t : Type := Build { id : Z; ownerId : option Z; isActive : bool }.
End Resource.

Definition AddressEntity : Type := Resource.t.
Definition ProductEntity : Type := Resource.t.


Module OrderEntity.
(** Modelled from the spec: [OrderEntity] (its entity file is not part of
    the sources): the common resource shape, owned through [userId], with
    the two columns that [UpdateOrderPayload] names. [OrderStatus] is an
    enum whose members are not in the sources; it is kept as its number. *)
Record t : Type :=
  Build { id : Z; userId : Z; isActive : bool;
          status : Z; trackingCode : option string }.
End OrderEntity.

Module UpdateOrderPayload.
(** The class declares [status?: OrderStatus] and [trackingCode?: string],
    both optional, and nothing else. The order service that hands it to the
    repository is not part of the sources. *)
Record t : Type :=
  Build { status : option Z; trackingCode : option string }.
End UpdateOrderPayload.

(** ** The user service *)

Module UserService.
Import UserEntity.

(** The collaborators of the service: [getOne] is inherited from the CRUD
    base class and reads the user rows; the three listing services are
    injected by the constructor. None of them is part of the sources, and
    nothing is assumed about what they return. *)
Record t : Type :=
  Build { getOne : Table -> CrudRequest.t -> Result UserEntity.t;
          addressService_getMany : CrudRequest.t -> Result (list AddressEntity);
          productService_getMany : CrudRequest.t -> Result (list ProductEntity);
          orderService_getMany : CrudRequest.t -> Result (list OrderEntity.t) }.

(** A call that reads outside the user rows. *)
Definition call {A : Type} (r : Result A) : Promise Table A :=
  fun rows => (r, rows).

(** [promise.catch(() => undefined)] *)
Definition catchUndefined {A : Type} (r : Result A) : option A :=
  match r with
  | Resolved a => Some a
  | Rejected _ => None
  end.

Definition hasPermissions (entityId : Z) (requestUser : RequestUser.t) : bool :=
  (entityId =? RequestUser.id requestUser) || isAdminUser requestUser.

Section Create.
(** [encryptPassword] (src/utils/password) is not part of the sources. *)
Variable encryptPassword : string -> string.

Definition create (createUserPayload : CreateUserPayload.t) : Promise Table UserEntity.t :=
  let entity := UserEntity.new createUserPayload in
  let entity := withPassword (encryptPassword (password entity)) entity in
  let entity :=
    withRoles (match roles entity with
               | Some r => Some r
               | None => Some User
               end) entity in
  save entity.
End Create.

(** With a CRUD request, the search of the request is extended with the id
    and the entity is what [getOne] finds, [undefined] when it rejects;
    without one, the entity is looked up by id. *)
Definition get (this : t) (userId : Z) (requestUser : RequestUser.t)
    (crudRequest : option CrudRequest.t) : Promise Table UserEntity.t :=
  entity <-
    match crudRequest with
    | Some crudRequest =>
        fun rows =>
          (Resolved
             (catchUndefined
                (getOne this rows (CrudRequest.andEq crudRequest "id" userId))),
           rows)
    | None => findOne userId
    end ;;
  match entity with
  | None => throw (EntityNotFoundException userId None)
  | Some entity =>
      if negb (isActive entity) then
        throw (EntityNotFoundException userId None)
      else if negb (hasPermissions (id entity) requestUser) then
        throw ForbiddenException
      else ret entity
  end.

(** [crudRequest.parsed.search = ...] on an absent [crudRequest] is a
    [TypeError]. *)
Definition withUserId {A : Type} (crudRequest : option CrudRequest.t)
    (userId : Z) (getMany : CrudRequest.t -> Result A) : Promise Table A :=
  match crudRequest with
  | None => throw TypeError
  | Some crudRequest => call (getMany (CrudRequest.andEq crudRequest "userId" userId))
  end.

Definition getAddressesByUserId (this : t) (userId : Z)
    (requestUser : RequestUser.t) (crudRequest : option CrudRequest.t)
  : Promise Table (list AddressEntity) :=
  entity <- findOne userId ;;
  match entity with
  | None => throw (EntityNotFoundException userId (Some "UserEntity"))
  | Some entity =>
      if negb (isActive entity) then
        throw (EntityNotFoundException userId (Some "UserEntity"))
      else if negb (hasPermissions (id entity) requestUser) then
        throw ForbiddenException
      else withUserId crudRequest userId (addressService_getMany this)
  end.

Definition getProductsByUserId (this : t) (userId : Z)
    (crudRequest : option CrudRequest.t)
  : Promise Table (list ProductEntity) :=
  entity <- findOne userId ;;
  match entity with
  | None => throw (EntityNotFoundException userId (Some "UserEntity"))
  | Some entity =>
      if negb (isActive entity) then
        throw (EntityNotFoundException userId (Some "UserEntity"))
      else withUserId crudRequest userId (productService_getMany this)
  end.

Definition getOrdersByUserId (this : t) (userId : Z)
    (requestUser : RequestUser.t) (crudRequest : option CrudRequest.t)
  : Promise Table (list OrderEntity.t) :=
  entity <- findOne userId ;;
  match entity with
  | None => throw (EntityNotFoundException userId (Some "UserEntity"))
  | Some entity =>
      if negb (isActive entity) then
        throw (EntityNotFoundException userId (Some "UserEntity"))
      else if negb (hasPermissions (id entity) requestUser) then
        throw ForbiddenException
      else withUserId crudRequest userId (orderService_getMany this)
  end.

Definition update (userId : Z) (requestUser : RequestUser.t)
    (updatedUserPayload : UpdateUserPaylaod.t) : Promise Table unit :=
  entity <- findOne userId ;;
  match entity with
  | None => throw (EntityNotFoundException userId None)
  | Some entity =>
      if negb (isActive entity) then
        throw (EntityNotFoundException userId None)
      else if negb (hasPermissions (id entity) requestUser) then
        throw ForbiddenException
      else UserEntity.update userId (payloadPartial updatedUserPayload)
  end.

Definition delete (userId : Z) (requestUser : RequestUser.t) : Promise Table unit :=
  entity <- findOne userId ;;
  match entity with
  | None => throw (EntityNotFoundException userId None)
  | Some entity =>
      if negb (isActive entity) then
        throw (EntityNotFoundException userId None)
      else if negb (hasPermissions (id entity) requestUser) then
        throw ForbiddenException
      else UserEntity.delete userId
  end.

Definition disable (userId : Z) (requestUser : RequestUser.t) : Promise Table unit :=
  entity <- findOne userId ;;
  match entity with
  | None => throw (EntityNotFoundException userId None)
  | Some entity =>
      if negb (isActive entity) then
        throw (EntityAlreadyDisabledException userId "UserEntity")
      else if negb (hasPermissions (id entity) requestUser) then
        throw ForbiddenException
      else UserEntity.update userId (isActivePartial false)
  end.

Definition enable (userId : Z) (requestUser : RequestUser.t) : Promise Table unit :=
  entity <- findOne userId ;;
  match entity with
  | None => throw (EntityNotFoundException userId None)
  | Some entity =>
      if isActive entity then
        throw (EntityAlreadyEnabledException userId "UserEntity")
      else if negb (hasPermissions (id entity) requestUser) then
        throw ForbiddenException
      else UserEntity.update userId (isActivePartial true)
  end.
End UserService.

(** ** [update], at the object that its payload is when the call runs *)

Module Unfiltered.
Import UserEntity.

(** [update] hands [updatedUserPayload] to the repository as it receives it:
    the fields that the object carries are the fields that are written. The
    class of the payload is not part of the sources; here the payload is any
    partial entity, and the body is the body of [update]. *)
Definition update (userId : Z) (requestUser : RequestUser.t)
    (updatedUserPayload : Partial) : Promise Table unit :=
  entity <- findOne userId ;;
  match entity with
  | None => throw (EntityNotFoundException userId None)
  | Some entity =>
      if negb (isActive entity) then
        throw (EntityNotFoundException userId None)
      else if negb (UserService.hasPermissions (id entity) requestUser) then
        throw ForbiddenException
      else UserEntity.update userId updatedUserPayload
  end.
End Unfiltered.

(** The methods of the user service that take a target user id, and what a
    call of each leaves: the exception, if it rejected, and the rows. *)
Module Operation.
Inductive t : Type :=
| Get (crudRequest : option CrudRequest.t)
| GetAddresses (crudRequest : option CrudRequest.t)
| GetProducts (crudRequest : option CrudRequest.t)
| GetOrders (crudRequest : option CrudRequest.t)
| Update (updatedUserPayload : UpdateUserPaylaod.t)
| Delete
| Disable
| Enable.

Definition settle {A : Type} (p : Result A * UserEntity.Table)
  : option Exception * UserEntity.Table :=
  match p with
  | (Resolved _, rows) => (None, rows)
  | (Rejected e, rows) => (Some e, rows)
  end.

Definition run (this : UserService.t) (op : t) (userId : Z)
    (requestUser : RequestUser.t) (rows : UserEntity.Table)
  : option Exception * UserEntity.Table :=
  match op with
  | Get crudRequest =>
      settle (UserService.get this userId requestUser crudRequest rows)
  | GetAddresses crudRequest =>
      settle (UserService.getAddressesByUserId this userId requestUser crudRequest rows)
  | GetProducts crudRequest =>
      settle (UserService.getProductsByUserId this userId crudRequest rows)
  | GetOrders crudRequest =>
      settle (UserService.getOrdersByUserId this userId requestUser crudRequest rows)
  | Update updatedUserPayload =>
      settle (UserService.update userId requestUser updatedUserPayload rows)
  | Delete => settle (UserService.delete userId requestUser rows)
  | Disable => settle (UserService.disable userId requestUser rows)
  | Enable => settle (UserService.enable userId requestUser rows)
  end.

(** The five operations on the user itself; the other three list what the
    user owns. *)
Definition onUser (op : t) : bool :=
  match op with
  | Get _ | Update _ | Delete | Disable | Enable => true
  | GetAddresses _ | GetProducts _ | GetOrders _ => false
  end.

(** The entity an operation loads before its checks. *)
Definition loaded (this : UserService.t) (op : t) (userId : Z)
    (rows : UserEntity.Table) : option UserEntity.t :=
  match op with
  | Get (Some crudRequest) =>
      UserService.catchUndefined
        (UserService.getOne this rows (CrudRequest.andEq crudRequest "id" userId))
  | _ => UserEntity.lookup rows userId
  end.

(** The lifecycle state an operation requires of the loaded entity. *)
Definition requiredState (op : t) : bool :=
  match op with
  | Enable => false
  | _ => true
  end.

(** The exception an operation throws on an entity in the other state. *)
Definition wrongState (op : t) (userId : Z) : Exception :=
  match op with
  | Disable => EntityAlreadyDisabledException userId "UserEntity"
  | Enable => EntityAlreadyEnabledException userId "UserEntity"
  | _ => EntityNotFoundException userId None
  end.

(** The business exceptions of the service. *)
Definition business (e : Exception) : bool :=
  match e with
  | EntityNotFoundException _ _ | ForbiddenException
  | EntityAlreadyDisabledException _ _ | EntityAlreadyEnabledException _ _ => true
  | TypeError => false
  end.
End Operation.

(** The guard sequence that the listings of a user's resources are to
    follow, in the words of the specification: NotFound for an absent or
    inactive user, then Forbidden when the ownership check is required and
    fails, then the listing restricted to [userId]. *)
Definition guardedListing {A : Type} (needsPermission : bool)
    (getMany : CrudRequest.t -> Result A) (userId : Z) (U : RequestUser.t)
    (crudRequest : CrudRequest.t) (rows : UserEntity.Table) : Result A * UserEntity.Table :=
  match UserEntity.lookup rows userId with
  | None => (Rejected (EntityNotFoundException userId (Some "UserEntity")), rows)
  | Some e =>
      if UserEntity.isActive e then
        if negb needsPermission || UserService.hasPermissions (UserEntity.id e) U
        then (getMany (CrudRequest.andEq crudRequest "userId" userId), rows)
        else (Rejected ForbiddenException, rows)
      else (Rejected (EntityNotFoundException userId (Some "UserEntity")), rows)
  end.

(** ** The shopping-cart controller *)

(** Modelled from the spec: the [ProtectTo] decorator
    (src/decorators/protect-to is not part of the sources) restricts a route
    to the listed roles "at the boundary": the handler runs for a caller
    with one of these roles, and the request is refused otherwise. *)
Definition ProtectTo {S A : Type} (allowed : list RolesEnum)
    (requestUser : RequestUser.t) (handler : Promise S A) : Promise S A :=
  if existsb (RolesEnum_eqb (RequestUser.roles requestUser)) allowed
  then handler
  else throw ForbiddenException.

Module ShoppingCartService.
Section Service.
Variables Store UpdateShoppingCartPayload : Type.

(** The shopping-cart service (../services/shopping-cart.service) is not
    part of the sources: it is the injected collaborator of the controller,
    with each method at the arguments the controller calls it with. *)
Record t : Type :=
  Build { update : Z -> UpdateShoppingCartPayload -> Promise Store unit;
          delete : Z -> RequestUser.t -> Promise Store unit;
          disable : Z -> Promise Store unit;
          enable : Z -> Promise Store unit }.
End Service.
End ShoppingCartService.

Module ShoppingCartController.
Section Controller.
Variables Store UpdateShoppingCartPayload : Type.

Record t : Type :=
  Build { shoppingCartService : ShoppingCartService.t Store UpdateShoppingCartPayload }.

(** [@ProtectTo(RolesEnum.Admin) @Patch(':id')] *)
Definition update (this : t) (requestUser : RequestUser.t) (shoppingCartId : Z)
    (updateShoppingCartPayload : UpdateShoppingCartPayload) : Promise Store unit :=
  ProtectTo [Admin] requestUser
    (ShoppingCartService.update (shoppingCartService this)
       shoppingCartId updateShoppingCartPayload).

(** [@ProtectTo(RolesEnum.User, RolesEnum.Seller, RolesEnum.Admin) @Delete(':id')] *)
Definition delete (this : t) (requestUser : RequestUser.t) (shoppingCartId : Z)
  : Promise Store unit :=
  ProtectTo [User; Seller; Admin] requestUser
    (ShoppingCartService.delete (shoppingCartService this)
       shoppingCartId requestUser).

(** [@ProtectTo(RolesEnum.Admin) @Put(':id/disable')] *)
Definition disable (this : t) (requestUser : RequestUser.t) (shoppingCartId : Z)
  : Promise Store unit :=
  ProtectTo [Admin] requestUser
    (ShoppingCartService.disable (shoppingCartService this) shoppingCartId).

(** [@ProtectTo(RolesEnum.Admin) @Put(':id/enable')] *)
Definition enable (this : t) (requestUser : RequestUser.t) (shoppingCartId : Z)
  : Promise Store unit :=
  ProtectTo [Admin] requestUser
    (ShoppingCartService.enable (shoppingCartService this) shoppingCartId).
End Controller.
End ShoppingCartController.

(** ** A small scenario: two stored users, their callers, a stranger and an
    administrator *)

Module Scenario.
Import UserEntity.

Definition alice : UserEntity.t :=
  {| id := 1; isActive := true; password := "$2a$alice";
     roles := Some User; columns := [("name", "Alice")] |}.

Definition bob : UserEntity.t :=
  {| id := 2; isActive := false; password := "$2a$bob";
     roles := Some Seller; columns := [("name", "Bob")] |}.

Definition rows : Table := [alice; bob].

Definition owner : RequestUser.t := {| RequestUser.id := 1; RequestUser.roles := User |}.
Definition bobUser : RequestUser.t := {| RequestUser.id := 2; RequestUser.roles := Seller |}.
Definition stranger : RequestUser.t := {| RequestUser.id := 5; RequestUser.roles := User |}.
Definition admin : RequestUser.t := {| RequestUser.id := 9; RequestUser.roles := Admin |}.

(** Whether a row meets a search condition on its [id] or [isActive]
    column; conditions on other columns are not interpreted. *)
Definition meets (e : UserEntity.t) (c : CrudRequest.SCondition) : bool :=
  match CrudRequest.value c with
  | CrudRequest.VNum n =>
      if String.eqb (CrudRequest.field c) "id" then id e =? n else true
  | CrudRequest.VBool b =>
      if String.eqb (CrudRequest.field c) "isActive"
      then Bool.eqb (isActive e) b else true
  | CrudRequest.VStr _ => true
  end.

(** A service whose [getOne] returns the first row that meets the search,
    whose product listing has one product of user 1, and whose other
    listings are empty. *)
Definition service : UserService.t :=
  {| UserService.getOne := fun rows crudRequest =>
       match find (fun e => forallb (meets e)
                               (CrudRequest.parsed_search_and crudRequest)) rows with
       | Some e => Resolved e
       | None => Rejected (EntityNotFoundException 0 None)
       end;
     UserService.addressService_getMany := fun _ => Resolved [];
     UserService.productService_getMany := fun _ =>
       Resolved [ {| Resource.id := 10; Resource.ownerId := Some 1;
                     Resource.isActive := true |} ];
     UserService.orderService_getMany := fun _ => Resolved [] |}.

Definition emptyRequest : CrudRequest.t :=
  {| CrudRequest.parsed_search_and := [] |}.

(** A hashing stand-in for the scenario: it tags the password. *)
Definition tagPassword (pw : string) : string := String.append "$2a$" pw.

Definition payload : CreateUserPayload.t :=
  {| CreateUserPayload.password := "secret";
     CreateUserPayload.roles := None;
     CreateUserPayload.columns := [("name", "Carol")] |}.
(** A cart of user 5, and a cart service for the scenario: its [disable]
    and [enable] write the flag of the cart with the given id. *)
Definition cart : Resource.t :=
  {| Resource.id := 4; Resource.ownerId := Some 5; Resource.isActive := true |}.

Definition setCartActive (b : bool) (cartId : Z) : Promise (list Resource.t) unit :=
  fun carts =>
    (Resolved tt,
     map (fun c => if Resource.id c =? cartId
                   then {| Resource.id := Resource.id c;
                           Resource.ownerId := Resource.ownerId c;
                           Resource.isActive := b |}
                   else c) carts).

Definition cartController : ShoppingCartController.t (list Resource.t) unit :=
  {| ShoppingCartController.shoppingCartService :=
       {| ShoppingCartService.update := fun _ _ => ret tt;
          ShoppingCartService.delete := fun _ _ => ret tt;
          ShoppingCartService.disable := setCartActive false;
          ShoppingCartService.enable := setCartActive true |} |}.
End Scenario.

(** ** Notions for the properties of sequences of calls *)

(** The lifecycle state of a user id in the rows: no row, or the flag of
    the first row with this id. *)
Module Lifecycle.
Inductive t : Type := Active | Inactive | Deleted.

Definition status (rows : UserEntity.Table) (userId : Z) : t :=
  match UserEntity.lookup rows userId with
  | None => Deleted
  | Some e => if UserEntity.isActive e then Active else Inactive
  end.

(** The state after an operation on the id, by whether the caller passes
    the ownership check: only a permitted [disable], [enable] or [delete]
    in the state it requires moves the state. *)
Definition transition (op : Operation.t) (permitted : bool) (s : t) : t :=
  match op, s with
  | Operation.Disable, Active => if permitted then Inactive else Active
  | Operation.Enable, Inactive => if permitted then Active else Inactive
  | Operation.Delete, Active => if permitted then Deleted else Active
  | _, _ => s
  end.
End Lifecycle.

(** The operations that load the entity with [UserEntity.findOne]: all but
    [get] with a CRUD request. *)
Definition loadsById (op : Operation.t) : bool :=
  match op with
  | Operation.Get (Some _) => false
  | _ => true
  end.

(** The three listings. *)
Definition isListing (op : Operation.t) : bool :=
  match op with
  | Operation.GetAddresses _ | Operation.GetProducts _ | Operation.GetOrders _ => true
  | _ => false
  end.

(** The rows after a sequence of calls on one user id, each by its caller. *)
Fixpoint runAll (this : UserService.t) (userId : Z)
    (calls : list (Operation.t * RequestUser.t)) (rows : UserEntity.Table)
  : UserEntity.Table :=
  match calls with
  | [] => rows
  | (op, requestUser) :: rest =>
      runAll this userId rest (snd (Operation.run this op userId requestUser rows))
  end.

(** * Properties *)

Unset Implicit Arguments.
Import UserEntity.

(** ** Lookups *)

Lemma lookup_Some (rows : Table) (userId : Z) (e : UserEntity.t) :
  lookup rows userId = Some e -> id e = userId /\ In e rows.
Proof.
  unfold lookup. intros H.
  destruct (find_some _ _ H) as [Hin Heq].
  split; [now apply Z.eqb_eq | exact Hin].
Qed.

(** A row-wise change that keeps ids commutes with the lookup. *)
Lemma lookup_map (f : UserEntity.t -> UserEntity.t) (rows : Table) (userId : Z) :
  (forall e, id (f e) = id e) ->
  lookup (map f rows) userId = option_map f (lookup rows userId).
Proof.
  intros Hid. unfold lookup.
  induction rows as [|e rows IH]; cbn; [reflexivity|].
  rewrite Hid. destruct (id e =? userId); [reflexivity | exact IH].
Qed.

(** ** The ownership policy *)

Lemma isAdminUser_iff (u : RequestUser.t) :
  isAdminUser u = true <-> RequestUser.roles u = Admin.
Proof.
  unfold isAdminUser. destruct (RequestUser.roles u); cbn;
    split; intros H; try reflexivity; discriminate.
Qed.

Lemma hasPermissions_true (o : Z) (u : RequestUser.t) :
  UserService.hasPermissions o u = true <->
  (o = RequestUser.id u \/ RequestUser.roles u = Admin).
Proof.
  unfold UserService.hasPermissions.
  rewrite orb_true_iff, Z.eqb_eq, isAdminUser_iff. reflexivity.
Qed.

Lemma hasPermissions_false (o : Z) (u : RequestUser.t) :
  UserService.hasPermissions o u = false <->
  (o <> RequestUser.id u /\ RequestUser.roles u <> Admin).
Proof.
  rewrite <- not_true_iff_false, hasPermissions_true. tauto.
Qed.

(** C1. [hasPermissions o u] is [true] exactly when the owner id [o] is the
    caller's id or the caller's role is Admin. The policy is a function to
    [bool]: it has a value on every input and touches no store. *)
Theorem hasPermissions_iff (o : Z) (u : RequestUser.t) :
  UserService.hasPermissions o u = true <->
  (o = RequestUser.id u \/ RequestUser.roles u = Admin).
Proof.
  unfold UserService.hasPermissions, isAdminUser.
  destruct u as [uid role]; cbn.
  split.
  - intros H. apply orb_true_iff in H. destruct H as [H|H].
    + left. now apply Z.eqb_eq.
    + right. destruct role; [reflexivity | discriminate | discriminate].
  - intros [->| ->].
    + rewrite Z.eqb_refl. reflexivity.
    + apply orb_true_r.
Qed.

(** ** Reading one user *)

Ltac unfold_service :=
  unfold UserService.get, UserService.update, UserService.delete,
    UserService.disable, UserService.enable,
    UserService.getAddressesByUserId, UserService.getProductsByUserId,
    UserService.getOrdersByUserId, UserService.withUserId, UserService.call,
    UserEntity.update, UserEntity.delete,
    bind, findOne, throw, ret.

Ltac by_cases_on_entity e :=
  destruct (isActive e) eqn:?; cbn;
  try destruct (UserService.hasPermissions (id e) _) eqn:?; cbn.

(** What [get] without a CRUD request does, by the lookup. *)
Lemma get_lookup (this : UserService.t) (userId : Z) (U : RequestUser.t)
    (rows : Table) :
  UserService.get this userId U None rows =
  match lookup rows userId with
  | None => (Rejected (EntityNotFoundException userId None), rows)
  | Some e =>
      if isActive e then
        if UserService.hasPermissions (id e) U then (Resolved e, rows)
        else (Rejected ForbiddenException, rows)
      else (Rejected (EntityNotFoundException userId None), rows)
  end.
Proof.
  unfold_service. destruct (lookup rows userId) as [e|]; [|reflexivity].
  destruct (isActive e); cbn; [|reflexivity].
  destruct (UserService.hasPermissions (id e) U); reflexivity.
Qed.

(** What [get] with a CRUD request does, by what [getOne] returns for the
    request extended with the id. *)
Lemma get_getOne (this : UserService.t) (userId : Z) (U : RequestUser.t)
    (crudRequest : CrudRequest.t) (rows : Table) :
  UserService.get this userId U (Some crudRequest) rows =
  match UserService.getOne this rows (CrudRequest.andEq crudRequest "id" userId) with
  | Rejected _ => (Rejected (EntityNotFoundException userId None), rows)
  | Resolved e =>
      if isActive e then
        if UserService.hasPermissions (id e) U then (Resolved e, rows)
        else (Rejected ForbiddenException, rows)
      else (Rejected (EntityNotFoundException userId None), rows)
  end.
Proof.
  unfold_service.
  destruct (UserService.getOne this rows _) as [e|x]; [|reflexivity].
  cbn. by_cases_on_entity e; reflexivity.
Qed.

(** C2. For a stored record [R] and a caller [U], [get R.id U] returns [R]
    exactly when [R] is active and [U] is [R] itself or an Admin; it rejects
    with NotFound when [R] is inactive, and with Forbidden when [R] is
    active and [U] is neither. For an id with no record it rejects with
    NotFound. *)
Theorem get_succeeds_iff (this : UserService.t) (rows : Table) (U : RequestUser.t) :
  (forall R, stored rows R ->
     (UserService.get this (id R) U None rows = (Resolved R, rows) <->
      isActive R = true /\
      (RequestUser.id U = id R \/ RequestUser.roles U = Admin)) /\
     (isActive R = false ->
      UserService.get this (id R) U None rows =
      (Rejected (EntityNotFoundException (id R) None), rows)) /\
     (isActive R = true ->
      RequestUser.id U <> id R -> RequestUser.roles U <> Admin ->
      UserService.get this (id R) U None rows =
      (Rejected ForbiddenException, rows))) /\
  (forall userId, lookup rows userId = None ->
     UserService.get this userId U None rows =
     (Rejected (EntityNotFoundException userId None), rows)).
Proof.
  split.
  - intros R HR. rewrite get_lookup. unfold stored in HR. rewrite HR.
    destruct (isActive R) eqn:Hact.
    + destruct (UserService.hasPermissions (id R) U) eqn:Hperm.
      * apply hasPermissions_true in Hperm.
        repeat split; try discriminate; try tauto.
        -- destruct Hperm; [left; congruence | right; assumption].
        -- intros _ Hid Hrole. destruct Hperm; congruence.
      * apply hasPermissions_false in Hperm. destruct Hperm as [Hid Hrole].
        repeat split; try discriminate; try reflexivity.
        intros [_ [H|H]]; congruence.
    + repeat split; try discriminate; try reflexivity.
      * intros [H _]. discriminate.
  - intros userId Hnone. rewrite get_lookup, Hnone. reflexivity.
Qed.

Lemma get_succeeds_iff_witness :
  UserService.get Scenario.service 1 Scenario.owner None Scenario.rows =
    (Resolved Scenario.alice, Scenario.rows) /\
  UserService.get Scenario.service 1 Scenario.admin None Scenario.rows =
    (Resolved Scenario.alice, Scenario.rows) /\
  UserService.get Scenario.service 1 Scenario.stranger None Scenario.rows =
    (Rejected ForbiddenException, Scenario.rows) /\
  UserService.get Scenario.service 2 Scenario.bobUser None Scenario.rows =
    (Rejected (EntityNotFoundException 2 None), Scenario.rows) /\
  UserService.get Scenario.service 7 Scenario.admin None Scenario.rows =
    (Rejected (EntityNotFoundException 7 None), Scenario.rows).
Proof.
  destruct (get_succeeds_iff Scenario.service Scenario.rows Scenario.owner)
    as [Ho _].
  destruct (get_succeeds_iff Scenario.service Scenario.rows Scenario.admin)
    as [Ha Habsent].
  destruct (get_succeeds_iff Scenario.service Scenario.rows Scenario.stranger)
    as [Hs _].
  destruct (get_succeeds_iff Scenario.service Scenario.rows Scenario.bobUser)
    as [Hb _].
  destruct (Ho Scenario.alice eq_refl) as [Ho1 _].
  destruct (Ha Scenario.alice eq_refl) as [Ha1 _].
  destruct (Hs Scenario.alice eq_refl) as [_ [_ Hs3]].
  destruct (Hb Scenario.bob eq_refl) as [_ [Hb2 _]].
  split; [apply Ho1; split; [reflexivity | left; reflexivity]|].
  split; [apply Ha1; split; [reflexivity | right; reflexivity]|].
  split; [apply Hs3; [reflexivity | cbn; lia | discriminate]|].
  split; [apply Hb2; reflexivity|].
  apply Habsent. reflexivity.
Defined.

(** ** The lifecycle transitions *)

(** The rows after [UserEntity.update({ id: userId }, { isActive: b })]. *)
Lemma update_isActive_rows (userId : Z) (b : bool) (rows : Table) :
  UserEntity.update userId (isActivePartial b) rows =
  (Resolved tt,
   map (fun e => if id e =? userId
                 then UserEntity.Build (id e) b (password e) (roles e) (columns e)
                 else e) rows).
Proof. reflexivity. Qed.

Lemma lookup_update_isActive (userId : Z) (b : bool) (rows : Table) (R : UserEntity.t) :
  lookup rows userId = Some R ->
  lookup (snd (UserEntity.update userId (isActivePartial b) rows)) userId =
  Some (UserEntity.Build (id R) b (password R) (roles R) (columns R)).
Proof.
  intros HR. rewrite update_isActive_rows. cbn [snd].
  rewrite lookup_map.
  - rewrite HR. cbn. destruct (lookup_Some _ _ _ HR) as [Hid _].
    apply Z.eqb_eq in Hid. rewrite Hid. reflexivity.
  - intros e. destruct (id e =? userId); reflexivity.
Qed.

Lemma disable_lookup (userId : Z) (U : RequestUser.t) (rows : Table) :
  UserService.disable userId U rows =
  match lookup rows userId with
  | None => (Rejected (EntityNotFoundException userId None), rows)
  | Some e =>
      if isActive e then
        if UserService.hasPermissions (id e) U
        then UserEntity.update userId (isActivePartial false) rows
        else (Rejected ForbiddenException, rows)
      else (Rejected (EntityAlreadyDisabledException userId "UserEntity"), rows)
  end.
Proof.
  unfold UserService.disable, bind, findOne, throw.
  destruct (lookup rows userId) as [e|]; [|reflexivity].
  destruct (isActive e); cbn; [|reflexivity].
  destruct (UserService.hasPermissions (id e) U); reflexivity.
Qed.

Lemma enable_lookup (userId : Z) (U : RequestUser.t) (rows : Table) :
  UserService.enable userId U rows =
  match lookup rows userId with
  | None => (Rejected (EntityNotFoundException userId None), rows)
  | Some e =>
      if isActive e then
        (Rejected (EntityAlreadyEnabledException userId "UserEntity"), rows)
      else if UserService.hasPermissions (id e) U
        then UserEntity.update userId (isActivePartial true) rows
        else (Rejected ForbiddenException, rows)
  end.
Proof.
  unfold UserService.enable, bind, findOne, throw.
  destruct (lookup rows userId) as [e|]; [|reflexivity].
  destruct (isActive e); cbn; [reflexivity|].
  destruct (UserService.hasPermissions (id e) U); reflexivity.
Qed.

(** C3. On an id with no record, [disable] and [enable] reject with
    NotFound. [disable] on an inactive record rejects with AlreadyDisabled
    and [enable] on an active one with AlreadyEnabled, whoever calls: the
    rows stay as they are, and the call does not resolve. For a permitted
    caller, [disable] on an active record resolves and leaves it inactive;
    after that, [get] rejects with NotFound for every caller, a second
    [disable] rejects with AlreadyDisabled, and [enable] on the same id
    resolves and leaves the record active again. [enable] on an inactive
    record resolves and leaves it active, and a second [enable] rejects with
    AlreadyEnabled. *)
Theorem lifecycle_transitions (this : UserService.t) (rows : Table)
    (userId : Z) (U : RequestUser.t) :
  (lookup rows userId = None ->
     UserService.disable userId U rows =
       (Rejected (EntityNotFoundException userId None), rows) /\
     UserService.enable userId U rows =
       (Rejected (EntityNotFoundException userId None), rows)) /\
  (forall R, lookup rows userId = Some R -> isActive R = false ->
     UserService.disable userId U rows =
       (Rejected (EntityAlreadyDisabledException userId "UserEntity"), rows)) /\
  (forall R, lookup rows userId = Some R -> isActive R = true ->
     UserService.enable userId U rows =
       (Rejected (EntityAlreadyEnabledException userId "UserEntity"), rows)) /\
  (forall R, lookup rows userId = Some R -> isActive R = true ->
     RequestUser.id U = userId \/ RequestUser.roles U = Admin ->
     exists rows',
       UserService.disable userId U rows = (Resolved tt, rows') /\
       lookup rows' userId =
         Some (UserEntity.Build (id R) false (password R) (roles R) (columns R)) /\
       (forall V, UserService.get this userId V None rows' =
                    (Rejected (EntityNotFoundException userId None), rows')) /\
       UserService.disable userId U rows' =
         (Rejected (EntityAlreadyDisabledException userId "UserEntity"), rows') /\
       exists rows'',
         UserService.enable userId U rows' = (Resolved tt, rows'') /\
         lookup rows'' userId = Some R) /\
  (forall R, lookup rows userId = Some R -> isActive R = false ->
     RequestUser.id U = userId \/ RequestUser.roles U = Admin ->
     exists rows',
       UserService.enable userId U rows = (Resolved tt, rows') /\
       lookup rows' userId =
         Some (UserEntity.Build (id R) true (password R) (roles R) (columns R)) /\
       UserService.enable userId U rows' =
         (Rejected (EntityAlreadyEnabledException userId "UserEntity"), rows')).
Proof.
  assert (Hperm : forall R, lookup rows userId = Some R ->
            RequestUser.id U = userId \/ RequestUser.roles U = Admin ->
            UserService.hasPermissions (id R) U = true).
  { intros R HR HU. apply hasPermissions_true.
    destruct (lookup_Some _ _ _ HR) as [Hid _].
    destruct HU; [left; congruence | right; assumption]. }
  repeat apply conj.
  - intros Hnone. rewrite disable_lookup, enable_lookup, Hnone. split; reflexivity.
  - intros R HR Hact. rewrite disable_lookup, HR, Hact. reflexivity.
  - intros R HR Hact. rewrite enable_lookup, HR, Hact. reflexivity.
  - intros R HR Hact HU.
    pose proof (lookup_update_isActive userId false rows R HR) as Hoff.
    exists (snd (UserEntity.update userId (isActivePartial false) rows)).
    set (rows' := snd (UserEntity.update userId (isActivePartial false) rows)) in *.
    split; [rewrite disable_lookup, HR, Hact, (Hperm R HR HU); reflexivity|].
    split; [exact Hoff|].
    split; [intros V; rewrite get_lookup, Hoff; reflexivity|].
    split; [rewrite disable_lookup, Hoff; reflexivity|].
    exists (snd (UserEntity.update userId (isActivePartial true) rows')).
    split.
    + rewrite enable_lookup, Hoff. cbn [isActive id].
      rewrite (Hperm R HR HU). reflexivity.
    + rewrite (lookup_update_isActive userId true rows' _ Hoff). cbn.
      destruct R as [i a p r c]. cbn in Hact. subst a. reflexivity.
  - intros R HR Hact HU.
    pose proof (lookup_update_isActive userId true rows R HR) as Hon.
    exists (snd (UserEntity.update userId (isActivePartial true) rows)).
    split; [rewrite enable_lookup, HR, Hact, (Hperm R HR HU); reflexivity|].
    split; [exact Hon|].
    rewrite enable_lookup, Hon. reflexivity.
Qed.

Lemma lifecycle_transitions_witness :
  exists rows',
    UserService.disable 1 Scenario.admin Scenario.rows = (Resolved tt, rows') /\
    UserService.get Scenario.service 1 Scenario.owner None rows' =
      (Rejected (EntityNotFoundException 1 None), rows') /\
    (exists rows'',
       UserService.enable 1 Scenario.admin rows' = (Resolved tt, rows'') /\
       lookup rows'' 1 = Some Scenario.alice) /\
    UserService.disable 2 Scenario.stranger Scenario.rows =
      (Rejected (EntityAlreadyDisabledException 2 "UserEntity"), Scenario.rows) /\
    UserService.enable 7 Scenario.admin Scenario.rows =
      (Rejected (EntityNotFoundException 7 None), Scenario.rows).
Proof.
  destruct (lifecycle_transitions Scenario.service Scenario.rows 1 Scenario.admin)
    as [_ [_ [_ [Hdis _]]]].
  destruct (Hdis Scenario.alice eq_refl eq_refl (or_intror eq_refl))
    as [rows' [H1 [_ [H3 [_ H5]]]]].
  destruct (lifecycle_transitions Scenario.service Scenario.rows 2 Scenario.stranger)
    as [_ [Hoff _]].
  destruct (lifecycle_transitions Scenario.service Scenario.rows 7 Scenario.admin)
    as [Habsent _].
  exists rows'.
  split; [exact H1|].
  split; [exact (H3 Scenario.owner)|].
  split; [exact H5|].
  split; [exact (Hoff Scenario.bob eq_refl eq_refl)|].
  exact (proj2 (Habsent eq_refl)).
Defined.

(** ** The order of the checks *)

(** C4. For Get, Update, Delete, Disable and Enable alike: with no entity
    loaded, every caller is rejected with NotFound; an entity in the wrong
    lifecycle state rejects with the state's exception whatever the caller's
    permission; with the entity present and in the right state, a caller
    without permission is rejected with Forbidden and the rows are untouched,
    and a caller with permission is not rejected. Forbidden is never the
    answer unless the entity was found in the right state. In particular
    [disable] on an inactive record answers AlreadyDisabled to a caller
    without permission. *)
Theorem ownership_check_order (this : UserService.t) (userId : Z)
    (U : RequestUser.t) (rows : Table) :
  (forall op, Operation.onUser op = true ->
     (Operation.loaded this op userId rows = None ->
        Operation.run this op userId U rows =
          (Some (EntityNotFoundException userId None), rows)) /\
     (forall R, Operation.loaded this op userId rows = Some R ->
        isActive R <> Operation.requiredState op ->
        Operation.run this op userId U rows =
          (Some (Operation.wrongState op userId), rows)) /\
     (forall R, Operation.loaded this op userId rows = Some R ->
        isActive R = Operation.requiredState op ->
        UserService.hasPermissions (id R) U = false ->
        Operation.run this op userId U rows = (Some ForbiddenException, rows)) /\
     (forall R, Operation.loaded this op userId rows = Some R ->
        isActive R = Operation.requiredState op ->
        UserService.hasPermissions (id R) U = true ->
        fst (Operation.run this op userId U rows) = None) /\
     (fst (Operation.run this op userId U rows) = Some ForbiddenException ->
        exists R, Operation.loaded this op userId rows = Some R /\
          isActive R = Operation.requiredState op /\
          UserService.hasPermissions (id R) U = false /\
          snd (Operation.run this op userId U rows) = rows)) /\
  (forall R, lookup rows userId = Some R -> isActive R = false ->
     UserService.hasPermissions (id R) U = false ->
     UserService.disable userId U rows =
       (Rejected (EntityAlreadyDisabledException userId "UserEntity"), rows)).
Proof.
  split.
  - intros op Hop.
    destruct op as [[cr|]| | | | p | | |]; try discriminate Hop; clear Hop;
      unfold Operation.run, Operation.loaded, Operation.requiredState,
        Operation.wrongState, Operation.settle;
      unfold_service;
      match goal with
      | |- context [UserService.catchUndefined ?x] =>
          destruct (UserService.catchUndefined x) as [e|]
      | |- context [lookup rows userId] =>
          destruct (lookup rows userId) as [e|]
      end;
      (repeat apply conj;
       [ intros H
       | intros R H Hst
       | intros R H Hst Hp
       | intros R H Hst Hp
       | intros H ];
       try discriminate H; try reflexivity;
       try (injection H as <-);
       try (by_cases_on_entity e; try reflexivity; try congruence;
            try discriminate; eauto 6)).
  - intros R HR Hact _. rewrite disable_lookup, HR, Hact. reflexivity.
Qed.

Lemma ownership_check_order_witness :
  Operation.run Scenario.service Operation.Disable 2 Scenario.stranger Scenario.rows =
    (Some (EntityAlreadyDisabledException 2 "UserEntity"), Scenario.rows) /\
  Operation.run Scenario.service Operation.Delete 7 Scenario.stranger Scenario.rows =
    (Some (EntityNotFoundException 7 None), Scenario.rows) /\
  Operation.run Scenario.service (Operation.Get (Some Scenario.emptyRequest)) 1
      Scenario.stranger Scenario.rows =
    (Some ForbiddenException, Scenario.rows).
Proof.
  destruct (ownership_check_order Scenario.service 2 Scenario.stranger Scenario.rows)
    as [Hdisable _].
  destruct (Hdisable Operation.Disable eq_refl) as [_ [Hstate _]].
  destruct (ownership_check_order Scenario.service 7 Scenario.stranger Scenario.rows)
    as [Hdelete _].
  destruct (Hdelete Operation.Delete eq_refl) as [Habsent _].
  destruct (ownership_check_order Scenario.service 1 Scenario.stranger Scenario.rows)
    as [Hget _].
  destruct (Hget (Operation.Get (Some Scenario.emptyRequest)) eq_refl)
    as [_ [_ [Hforbidden _]]].
  split; [apply (Hstate Scenario.bob); [reflexivity | discriminate]|].
  split; [apply Habsent; reflexivity|].
  apply (Hforbidden Scenario.alice); reflexivity.
Defined.

(** ** Listing what a user owns *)

Lemma getAddressesByUserId_guards (this : UserService.t) (userId : Z)
    (U : RequestUser.t) (crudRequest : CrudRequest.t) (rows : Table) :
  UserService.getAddressesByUserId this userId U (Some crudRequest) rows =
  guardedListing true (UserService.addressService_getMany this)
    userId U crudRequest rows.
Proof.
  unfold guardedListing. unfold_service.
  destruct (lookup rows userId) as [e|]; [|reflexivity].
  by_cases_on_entity e; reflexivity.
Qed.

Lemma getOrdersByUserId_guards (this : UserService.t) (userId : Z)
    (U : RequestUser.t) (crudRequest : CrudRequest.t) (rows : Table) :
  UserService.getOrdersByUserId this userId U (Some crudRequest) rows =
  guardedListing true (UserService.orderService_getMany this)
    userId U crudRequest rows.
Proof.
  unfold guardedListing. unfold_service.
  destruct (lookup rows userId) as [e|]; [|reflexivity].
  by_cases_on_entity e; reflexivity.
Qed.

(** The product listing has the NotFound guard only: whoever asks, the
    products of an active user are listed. *)
Lemma getProductsByUserId_guards (this : UserService.t) (userId : Z)
    (U : RequestUser.t) (crudRequest : CrudRequest.t) (rows : Table) :
  UserService.getProductsByUserId this userId (Some crudRequest) rows =
  guardedListing false (UserService.productService_getMany this)
    userId U crudRequest rows.
Proof.
  unfold guardedListing. unfold_service.
  destruct (lookup rows userId) as [e|]; [|reflexivity].
  destruct (isActive e); reflexivity.
Qed.

(** C5. The listings of addresses and of orders reject a stranger's request
    for the data of user 1 with Forbidden; the listing of products, which
    takes no caller, resolves with the products of user 1 on the same rows
    and the same request. *)
Theorem getProductsByUserId_not_forbidden :
  UserService.getAddressesByUserId Scenario.service 1 Scenario.stranger
      (Some Scenario.emptyRequest) Scenario.rows =
    (Rejected ForbiddenException, Scenario.rows) /\
  UserService.getOrdersByUserId Scenario.service 1 Scenario.stranger
      (Some Scenario.emptyRequest) Scenario.rows =
    (Rejected ForbiddenException, Scenario.rows) /\
  UserService.getProductsByUserId Scenario.service 1
      (Some Scenario.emptyRequest) Scenario.rows =
    (Resolved [ {| Resource.id := 10; Resource.ownerId := Some 1;
                   Resource.isActive := true |} ], Scenario.rows).
Proof. repeat split; reflexivity. Qed.

(** ** What an update can reach *)

Lemma map_update_keeps {B : Type} (proj : UserEntity.t -> B) (userId : Z)
    (p : Partial) (rows : Table) :
  (forall e, proj (patch p e) = proj e) ->
  map proj (snd (UserEntity.update userId p rows)) = map proj rows.
Proof.
  intros Hkeep. unfold UserEntity.update. cbn [snd].
  rewrite map_map. apply map_ext. intros e.
  destruct (id e =? userId); [apply Hkeep | reflexivity].
Qed.

(** Every operation leaves the ids of the rows as they are; [delete] leaves
    a part of the rows. *)
Lemma run_keeps_ids (this : UserService.t) (op : Operation.t) (userId : Z)
    (U : RequestUser.t) (rows : Table) :
  match op with
  | Operation.Delete =>
      forall e, In e (snd (Operation.run this op userId U rows)) -> In e rows
  | _ => map id (snd (Operation.run this op userId U rows)) = map id rows
  end.
Proof.
  destruct op as [[cr|]|[cr|]|[cr|]|[cr|]| p | | |];
    unfold Operation.run, Operation.settle; unfold_service;
    try match goal with
      | |- context [UserService.catchUndefined ?x] =>
          destruct (UserService.catchUndefined x) as [e|]
      | |- context [lookup rows userId] =>
          destruct (lookup rows userId) as [e|]
      end;
    try (by_cases_on_entity e); cbn;
    try match goal with
      | |- context [match ?r with Resolved _ => _ | Rejected _ => _ end] =>
          destruct r
      end; cbn [snd];
    try reflexivity; try tauto.
  - apply (map_update_keeps id userId (payloadPartial p) rows). reflexivity.
  - intros e' Hin. apply filter_In in Hin. tauto.
  - apply (map_update_keeps id userId (isActivePartial false) rows). reflexivity.
  - apply (map_update_keeps id userId (isActivePartial true) rows). reflexivity.
Qed.







(** ** Creating a user and reading it back *)

Lemma generatedId_above (rows : Table) (e : UserEntity.t) :
  In e rows -> id e < generatedId rows.
Proof.
  unfold generatedId. induction rows as [|x rows IH]; cbn [fold_right map In]; [tauto|].
  intros [->|Hin]; [lia|]. specialize (IH Hin). lia.
Qed.

Lemma lookup_app_new (rows : Table) (e : UserEntity.t) :
  (forall x, In x rows -> id x <> id e) ->
  lookup (rows ++ [e]) (id e) = Some e.
Proof.
  unfold lookup. induction rows as [|x rows IH]; cbn; intros Hnew.
  - rewrite Z.eqb_refl. reflexivity.
  - destruct (id x =? id e) eqn:Heq.
    + apply Z.eqb_eq in Heq. exfalso. apply (Hnew x); auto.
    + apply IH. intros y Hy. apply Hnew. auto.
Qed.

(** What [create] resolves to, and the rows it leaves. *)
Lemma create_rows (encryptPassword : string -> string)
    (payload : CreateUserPayload.t) (rows : Table) :
  UserService.create encryptPassword payload rows =
  (Resolved
     (UserEntity.Build (generatedId rows) true
        (encryptPassword (CreateUserPayload.password payload))
        (match CreateUserPayload.roles payload with
         | Some r => Some r
         | None => Some User
         end)
        (CreateUserPayload.columns payload)),
   (rows ++ [UserEntity.Build (generatedId rows) true
        (encryptPassword (CreateUserPayload.password payload))
        (match CreateUserPayload.roles payload with
         | Some r => Some r
         | None => Some User
         end)
        (CreateUserPayload.columns payload)])%list).
Proof. reflexivity. Qed.

Lemma create_stored (encryptPassword : string -> string)
    (payload : CreateUserPayload.t) (rows : Table) :
  exists created,
    UserService.create encryptPassword payload rows =
      (Resolved created, rows ++ [created]) /\
    (forall e, In e rows -> id e <> id created) /\
    stored (rows ++ [created]) created.
Proof.
  rewrite create_rows. eexists. split; [reflexivity|].
  assert (Hnew : forall e, In e rows -> id e <> generatedId rows).
  { intros e Hin. pose proof (generatedId_above rows e Hin). lia. }
  split; [exact Hnew|].
  unfold stored. apply lookup_app_new. exact Hnew.
Qed.

(** C7. [create payload] resolves to a new entity and leaves it as the last
    row, under an id that no other row has. [get] with that id, by the
    created user itself under any role, resolves to this entity. Its columns
    are the payload's; its role is the payload's when the payload has one;
    its password is what [encryptPassword] returns on the payload's password,
    and the payload's password itself is written nowhere; [isActive] is
    [true]. *)
Theorem create_then_get (encryptPassword : string -> string)
    (this : UserService.t) (payload : CreateUserPayload.t) (rows : Table)
    (role : RolesEnum) :
  exists created,
    UserService.create encryptPassword payload rows =
      (Resolved created, rows ++ [created]) /\
    (forall e, In e rows -> id e <> id created) /\
    UserService.get this (id created)
        {| RequestUser.id := id created; RequestUser.roles := role |}
        None (rows ++ [created]) =
      (Resolved created, rows ++ [created]) /\
    columns created = CreateUserPayload.columns payload /\
    (forall r, CreateUserPayload.roles payload = Some r -> roles created = Some r) /\
    password created = encryptPassword (CreateUserPayload.password payload) /\
    isActive created = true.
Proof.
  destruct (create_stored encryptPassword payload rows)
    as [created [Hcreate [Hnew Hstored]]].
  exists created. split; [exact Hcreate|]. split; [exact Hnew|].
  rewrite create_rows in Hcreate.
  injection Hcreate as Hc _. subst created.
  split.
  - rewrite get_lookup. unfold stored in Hstored. rewrite Hstored. cbn.
    unfold UserService.hasPermissions. cbn. rewrite Z.eqb_refl. reflexivity.
  - cbn. repeat split. intros r Hr. rewrite Hr. reflexivity.
Qed.

Lemma create_then_get_witness :
  exists created,
    UserService.create Scenario.tagPassword Scenario.payload Scenario.rows =
      (Resolved created, Scenario.rows ++ [created]) /\
    id created = 3 /\
    password created = "$2a$secret" /\
    UserService.get Scenario.service 3
        {| RequestUser.id := 3; RequestUser.roles := User |}
        None (Scenario.rows ++ [created]) =
      (Resolved created, Scenario.rows ++ [created]).
Proof.
  destruct (create_then_get Scenario.tagPassword Scenario.service
              Scenario.payload Scenario.rows User)
    as [created [Hcreate [_ [Hget [_ [_ [Hpw _]]]]]]].
  exists created.
  assert (Hid : id created = 3).
  { rewrite create_rows in Hcreate. injection Hcreate as Hc _.
    subst created. reflexivity. }
  split; [exact Hcreate|]. split; [exact Hid|].
  split; [exact Hpw|].
  rewrite Hid in Hget. exact Hget.
Defined.

(** ** Rejections write nothing *)

(** A call that rejects, with whatever exception, leaves the rows it found. *)
Lemma rejection_keeps_rows (this : UserService.t) (op : Operation.t)
    (userId : Z) (U : RequestUser.t) (rows : Table) (e : Exception) :
  fst (Operation.run this op userId U rows) = Some e ->
  snd (Operation.run this op userId U rows) = rows.
Proof.
  destruct op as [[cr|]|[cr|]|[cr|]|[cr|]| p | | |];
    unfold Operation.run, Operation.settle; unfold_service;
    try match goal with
      | |- context [UserService.catchUndefined ?x] =>
          destruct (UserService.catchUndefined x) as [x'|]
      | |- context [lookup rows userId] =>
          destruct (lookup rows userId) as [x'|]
      end;
    try (by_cases_on_entity x'); cbn;
    try match goal with
      | |- context [match ?r with Resolved _ => _ | Rejected _ => _ end] =>
          destruct r
      end; cbn; intros H; try reflexivity; discriminate H.
Qed.

(** C8. When a call of [get], of a listing, of [update], [delete],
    [disable] or [enable] rejects with NotFound, Forbidden, AlreadyDisabled
    or AlreadyEnabled, the rows after the call are the rows before it. *)
Theorem business_rejection_keeps_rows (this : UserService.t)
    (op : Operation.t) (userId : Z) (U : RequestUser.t) (rows : Table)
    (e : Exception) :
  fst (Operation.run this op userId U rows) = Some e ->
  Operation.business e = true ->
  snd (Operation.run this op userId U rows) = rows.
Proof.
  intros Hrejected _. exact (rejection_keeps_rows this op userId U rows e Hrejected).
Qed.

Lemma business_rejection_keeps_rows_witness :
  snd (Operation.run Scenario.service Operation.Disable 1 Scenario.stranger
         Scenario.rows) = Scenario.rows /\
  snd (Operation.run Scenario.service (Operation.Update (UpdateUserPaylaod.Build []))
         2 Scenario.bobUser Scenario.rows) = Scenario.rows.
Proof.
  split.
  - apply (business_rejection_keeps_rows Scenario.service Operation.Disable 1
             Scenario.stranger Scenario.rows ForbiddenException);
      reflexivity.
  - apply (business_rejection_keeps_rows Scenario.service
             (Operation.Update (UpdateUserPaylaod.Build [])) 2
             Scenario.bobUser Scenario.rows (EntityNotFoundException 2 None));
      reflexivity.
Defined.

(** ** The default role *)

(** C9. [create] stores the new user with the role User when the payload
    has no role, and with the payload's role when it has one. *)
Theorem create_default_role (encryptPassword : string -> string)
    (payload : CreateUserPayload.t) (rows : Table) :
  exists created,
    UserService.create encryptPassword payload rows =
      (Resolved created, rows ++ [created]) /\
    stored (rows ++ [created]) created /\
    (CreateUserPayload.roles payload = None -> roles created = Some User) /\
    (forall r, CreateUserPayload.roles payload = Some r ->
               roles created = Some r).
Proof.
  destruct (create_stored encryptPassword payload rows)
    as [created [Hcreate [_ Hstored]]].
  exists created. split; [exact Hcreate|]. split; [exact Hstored|].
  rewrite create_rows in Hcreate. injection Hcreate as Hc _. subst created.
  cbn. split.
  - intros ->. reflexivity.
  - intros r ->. reflexivity.
Qed.

Lemma create_default_role_witness :
  exists created,
    UserService.create Scenario.tagPassword Scenario.payload Scenario.rows =
      (Resolved created, Scenario.rows ++ [created]) /\
    roles created = Some User.
Proof.
  destruct (create_default_role Scenario.tagPassword Scenario.payload Scenario.rows)
    as [created [Hcreate [_ [Hdefault _]]]].
  exists created. split; [exact Hcreate | exact (Hdefault eq_refl)].
Defined.

(** ** The shopping-cart endpoints for administrators *)

Section AdminEndpoints.
Variables Store UpdateShoppingCartPayload : Type.
Variable this : ShoppingCartController.t Store UpdateShoppingCartPayload.

Lemma ProtectTo_Admin {A : Type} (requestUser : RequestUser.t)
    (handler : Promise Store A) :
  RequestUser.roles requestUser = Admin ->
  ProtectTo [Admin] requestUser handler = handler.
Proof. unfold ProtectTo. intros ->. reflexivity. Qed.

Lemma ProtectTo_refuses {A : Type} (allowed : list RolesEnum)
    (requestUser : RequestUser.t) (handler : Promise Store A) (s : Store) :
  existsb (RolesEnum_eqb (RequestUser.roles requestUser)) allowed = false ->
  ProtectTo allowed requestUser handler s = (Rejected ForbiddenException, s).
Proof. unfold ProtectTo. intros ->. reflexivity. Qed.

(** C10. For a caller with the Admin role, the update, disable and enable
    endpoints are the service's [update], [disable] and [enable] at the cart
    id (and the payload): the caller does not reach the service, so the
    outcome on any store is the same for every administrator, whoever owns
    the cart. *)
Theorem admin_endpoints_ignore_caller (requestUser : RequestUser.t)
    (shoppingCartId : Z) (payload : UpdateShoppingCartPayload) :
  RequestUser.roles requestUser = Admin ->
  (ShoppingCartController.update this requestUser shoppingCartId payload =
     ShoppingCartService.update
       (ShoppingCartController.shoppingCartService this) shoppingCartId payload /\
   ShoppingCartController.disable this requestUser shoppingCartId =
     ShoppingCartService.disable
       (ShoppingCartController.shoppingCartService this) shoppingCartId /\
   ShoppingCartController.enable this requestUser shoppingCartId =
     ShoppingCartService.enable
       (ShoppingCartController.shoppingCartService this) shoppingCartId) /\
  (forall other, RequestUser.roles other = Admin ->
     ShoppingCartController.update this other shoppingCartId payload =
       ShoppingCartController.update this requestUser shoppingCartId payload /\
     ShoppingCartController.disable this other shoppingCartId =
       ShoppingCartController.disable this requestUser shoppingCartId /\
     ShoppingCartController.enable this other shoppingCartId =
       ShoppingCartController.enable this requestUser shoppingCartId).
Proof.
  intros Hadmin.
  unfold ShoppingCartController.update, ShoppingCartController.disable,
    ShoppingCartController.enable.
  split.
  - rewrite !(ProtectTo_Admin requestUser _ Hadmin). repeat split.
  - intros other Hother.
    rewrite !(ProtectTo_Admin requestUser _ Hadmin),
            !(ProtectTo_Admin other _ Hother).
    repeat split.
Qed.
End AdminEndpoints.

Lemma admin_endpoints_ignore_caller_witness :
  ShoppingCartController.disable Scenario.cartController Scenario.admin 4
      [Scenario.cart] =
    (Resolved tt,
     [ {| Resource.id := 4; Resource.ownerId := Some 5;
          Resource.isActive := false |} ]).
Proof.
  destruct (admin_endpoints_ignore_caller (list Resource.t) unit
              Scenario.cartController Scenario.admin 4 tt eq_refl)
    as [[_ [Hdisable _]] _].
  rewrite Hdisable. reflexivity.
Defined.

(** * Further properties of the user service *)

(** ** Lookups under the repository writes *)

Lemma lookup_update_other (userId other : Z) (p : Partial) (rows : Table) :
  p_id p = None -> other <> userId ->
  lookup (snd (UserEntity.update userId p rows)) other = lookup rows other.
Proof.
  intros Hp Hother. unfold UserEntity.update, lookup. cbn [snd].
  induction rows as [|e rows IH]; cbn; [reflexivity|].
  destruct (id e =? userId) eqn:He.
  - unfold patch at 1. cbn. rewrite Hp. cbn.
    apply Z.eqb_eq in He.
    destruct (id e =? other) eqn:Ho.
    + apply Z.eqb_eq in Ho. congruence.
    + exact IH.
  - destruct (id e =? other); [reflexivity | exact IH].
Qed.

Lemma lookup_delete (userId other : Z) (rows : Table) :
  lookup (snd (UserEntity.delete userId rows)) other =
  if other =? userId then None else lookup rows other.
Proof.
  unfold UserEntity.delete, lookup. cbn [snd].
  induction rows as [|e rows IH]; cbn.
  - destruct (other =? userId); reflexivity.
  - destruct (id e =? userId) eqn:He; cbn.
    + rewrite IH. apply Z.eqb_eq in He.
      destruct (other =? userId) eqn:Ho; [reflexivity|].
      apply Z.eqb_neq in Ho.
      destruct (id e =? other) eqn:Heo; [|reflexivity].
      apply Z.eqb_eq in Heo. congruence.
    + destruct (id e =? other) eqn:Heo.
      * apply Z.eqb_eq in Heo. apply Z.eqb_neq in He.
        destruct (other =? userId) eqn:Ho; [|reflexivity].
        apply Z.eqb_eq in Ho. congruence.
      * exact IH.
Qed.

(** The entity found by id has this id, so the ownership check on it is the
    check on the id. *)
Lemma hasPermissions_lookup (rows : Table) (userId : Z) (e : UserEntity.t)
    (U : RequestUser.t) :
  lookup rows userId = Some e ->
  UserService.hasPermissions (id e) U = UserService.hasPermissions userId U.
Proof.
  intros He. destruct (lookup_Some _ _ _ He) as [-> _]. reflexivity.
Qed.

Lemma update_lookup (userId : Z) (U : RequestUser.t)
    (payload : UpdateUserPaylaod.t) (rows : Table) :
  UserService.update userId U payload rows =
  match lookup rows userId with
  | None => (Rejected (EntityNotFoundException userId None), rows)
  | Some e =>
      if isActive e then
        if UserService.hasPermissions (id e) U
        then UserEntity.update userId (payloadPartial payload) rows
        else (Rejected ForbiddenException, rows)
      else (Rejected (EntityNotFoundException userId None), rows)
  end.
Proof.
  unfold UserService.update, bind, findOne, throw.
  destruct (lookup rows userId) as [e|]; [|reflexivity].
  by_cases_on_entity e; reflexivity.
Qed.

Lemma delete_lookup (userId : Z) (U : RequestUser.t) (rows : Table) :
  UserService.delete userId U rows =
  match lookup rows userId with
  | None => (Rejected (EntityNotFoundException userId None), rows)
  | Some e =>
      if isActive e then
        if UserService.hasPermissions (id e) U
        then UserEntity.delete userId rows
        else (Rejected ForbiddenException, rows)
      else (Rejected (EntityNotFoundException userId None), rows)
  end.
Proof.
  unfold UserService.delete, bind, findOne, throw.
  destruct (lookup rows userId) as [e|]; [|reflexivity].
  by_cases_on_entity e; reflexivity.
Qed.

(** [get] and the listings write nothing, whatever they answer. *)
Lemma reads_keep_rows (this : UserService.t) (op : Operation.t) (userId : Z)
    (U : RequestUser.t) (rows : Table) :
  match op with
  | Operation.Get _ | Operation.GetAddresses _ | Operation.GetProducts _
  | Operation.GetOrders _ => snd (Operation.run this op userId U rows) = rows
  | _ => True
  end.
Proof.
  destruct op as [[cr|]|[cr|]|[cr|]|[cr|]| p | | |]; try exact I;
    unfold Operation.run, Operation.settle; unfold_service;
    try match goal with
      | |- context [UserService.catchUndefined ?x] =>
          destruct (UserService.catchUndefined x) as [e|]
      | |- context [lookup rows userId] =>
          destruct (lookup rows userId) as [e|]
      end;
    try (by_cases_on_entity e); cbn;
    try match goal with
      | |- context [match ?r with Resolved _ => _ | Rejected _ => _ end] =>
          destruct r
      end; reflexivity.
Qed.

Lemma status_update_isActive (userId : Z) (b : bool) (rows : Table) (R : UserEntity.t) :
  lookup rows userId = Some R ->
  Lifecycle.status (snd (UserEntity.update userId (isActivePartial b) rows)) userId =
  if b then Lifecycle.Active else Lifecycle.Inactive.
Proof.
  intros HR. unfold Lifecycle.status.
  rewrite (lookup_update_isActive userId b rows R HR). reflexivity.
Qed.

Lemma status_update_payload (userId : Z) (payload : UpdateUserPaylaod.t) (rows : Table) :
  Lifecycle.status (snd (UserEntity.update userId (payloadPartial payload) rows)) userId =
  Lifecycle.status rows userId.
Proof.
  unfold Lifecycle.status, UserEntity.update. cbn [snd].
  rewrite lookup_map.
  - destruct (lookup rows userId) as [e|] eqn:He; [|reflexivity].
    cbn. destruct (id e =? userId); reflexivity.
  - intros e. destruct (id e =? userId); reflexivity.
Qed.

Lemma snd_settle {A : Type} (p : Result A * Table) :
  snd (Operation.settle p) = snd p.
Proof. destruct p as [[a|e] rows]; reflexivity. Qed.

(** ** The lifecycle as a state machine *)

(** The lifecycle state of the target id after one call. *)
Lemma status_after_call (this : UserService.t) (op : Operation.t)
    (userId : Z) (U : RequestUser.t) (rows : Table) :
  Lifecycle.status (snd (Operation.run this op userId U rows)) userId =
  Lifecycle.transition op (UserService.hasPermissions userId U)
    (Lifecycle.status rows userId).
Proof.
  pose proof (reads_keep_rows this op userId U rows) as Hread.
  destruct op as [cr|cr|cr|cr| p | | |];
    try (rewrite Hread; destruct (Lifecycle.status rows userId); reflexivity);
    clear Hread; unfold Operation.run.
  - rewrite update_lookup. unfold Lifecycle.status at 2.
    destruct (lookup rows userId) as [e|] eqn:He;
      [|rewrite ?snd_settle; cbn [snd]; unfold Lifecycle.status; rewrite He; reflexivity].
    destruct (isActive e) eqn:Hact.
    + destruct (UserService.hasPermissions (id e) U); rewrite ?snd_settle; cbn [snd].
      * rewrite status_update_payload. unfold Lifecycle.status.
        rewrite He, Hact. reflexivity.
      * unfold Lifecycle.status. rewrite He, Hact. reflexivity.
    + rewrite ?snd_settle; cbn [snd]. unfold Lifecycle.status. rewrite He, Hact. reflexivity.
  - rewrite delete_lookup. unfold Lifecycle.status at 2.
    destruct (lookup rows userId) as [e|] eqn:He;
      [|rewrite ?snd_settle; cbn [snd]; unfold Lifecycle.status; rewrite He; reflexivity].
    rewrite (hasPermissions_lookup rows userId e U He).
    destruct (isActive e) eqn:Hact.
    + destruct (UserService.hasPermissions userId U); rewrite ?snd_settle; cbn [snd].
      * unfold Lifecycle.status. rewrite lookup_delete, Z.eqb_refl. reflexivity.
      * unfold Lifecycle.status. rewrite He, Hact. reflexivity.
    + rewrite ?snd_settle; cbn [snd]. unfold Lifecycle.status. rewrite He, Hact. reflexivity.
  - rewrite disable_lookup. unfold Lifecycle.status at 2.
    destruct (lookup rows userId) as [e|] eqn:He;
      [|rewrite ?snd_settle; cbn [snd]; unfold Lifecycle.status; rewrite He; reflexivity].
    rewrite (hasPermissions_lookup rows userId e U He).
    destruct (isActive e) eqn:Hact.
    + destruct (UserService.hasPermissions userId U); rewrite ?snd_settle; cbn [snd].
      * rewrite (status_update_isActive userId false rows e He). reflexivity.
      * unfold Lifecycle.status. rewrite He, Hact. reflexivity.
    + rewrite ?snd_settle; cbn [snd]. unfold Lifecycle.status. rewrite He, Hact. reflexivity.
  - rewrite enable_lookup. unfold Lifecycle.status at 2.
    destruct (lookup rows userId) as [e|] eqn:He;
      [|rewrite ?snd_settle; cbn [snd]; unfold Lifecycle.status; rewrite He; reflexivity].
    rewrite (hasPermissions_lookup rows userId e U He).
    destruct (isActive e) eqn:Hact.
    + rewrite ?snd_settle; cbn [snd]. unfold Lifecycle.status. rewrite He, Hact. reflexivity.
    + destruct (UserService.hasPermissions userId U); rewrite ?snd_settle; cbn [snd].
      * rewrite (status_update_isActive userId true rows e He). reflexivity.
      * unfold Lifecycle.status. rewrite He, Hact. reflexivity.
Qed.

(** X1. For every sequence of calls on a user id, each by its own caller,
    the lifecycle state of the id after the sequence is the state before
    it moved by the transitions of the calls in order: a permitted
    [disable] takes Active to Inactive, a permitted [enable] takes Inactive
    to Active, a permitted [delete] takes Active to Deleted, and every other
    call leaves the state, among them [delete] and [update] on an inactive
    user and every call on a deleted one. *)
Theorem lifecycle_simulation (this : UserService.t) (userId : Z)
    (calls : list (Operation.t * RequestUser.t)) (rows : Table) :
  Lifecycle.status (runAll this userId calls rows) userId =
  fold_left
    (fun s call =>
       Lifecycle.transition (fst call)
         (UserService.hasPermissions userId (snd call)) s)
    calls (Lifecycle.status rows userId).
Proof.
  revert rows. induction calls as [|[op U] calls IH]; intros rows.
  - reflexivity.
  - cbn [runAll fold_left fst snd]. rewrite IH, status_after_call. reflexivity.
Qed.

(** ** What [get] gives out *)

(** X2. When [get] resolves, with or without a CRUD request, the rows are
    untouched, the entity it gives out is active, and the caller is that
    entity's user or an Admin; without a CRUD request the entity is a row
    with the id that was asked for. *)
Theorem get_resolves_only_permitted (this : UserService.t) (userId : Z)
    (U : RequestUser.t) (crudRequest : option CrudRequest.t)
    (rows rows' : Table) (e : UserEntity.t) :
  UserService.get this userId U crudRequest rows = (Resolved e, rows') ->
  rows' = rows /\
  isActive e = true /\
  (id e = RequestUser.id U \/ RequestUser.roles U = Admin) /\
  (crudRequest = None -> id e = userId /\ In e rows).
Proof.
  destruct crudRequest as [cr|].
  - rewrite get_getOne.
    destruct (UserService.getOne this rows _) as [x|err]; [|discriminate].
    destruct (isActive x) eqn:Hact; [|discriminate].
    destruct (UserService.hasPermissions (id x) U) eqn:Hperm; [|discriminate].
    intros H. injection H as <- <-.
    apply hasPermissions_true in Hperm.
    split; [reflexivity|]. split; [assumption|]. split; [assumption|].
    discriminate.
  - rewrite get_lookup.
    destruct (lookup rows userId) as [x|] eqn:Hx; [|discriminate].
    destruct (isActive x) eqn:Hact; [|discriminate].
    destruct (UserService.hasPermissions (id x) U) eqn:Hperm; [|discriminate].
    intros H. injection H as <- <-.
    apply hasPermissions_true in Hperm.
    destruct (lookup_Some _ _ _ Hx) as [Hid Hin].
    repeat split; assumption.
Qed.

Lemma get_resolves_only_permitted_witness :
  isActive Scenario.alice = true /\
  (id Scenario.alice = RequestUser.id Scenario.owner \/
   RequestUser.roles Scenario.owner = Admin).
Proof.
  destruct (get_resolves_only_permitted Scenario.service 1 Scenario.owner
              (Some Scenario.emptyRequest) Scenario.rows Scenario.rows
              Scenario.alice eq_refl) as [_ [Hact [Hperm _]]].
  split; assumption.
Defined.

(** ** Callers that pass the ownership check *)

(** X3. [get], [update], [delete], [disable] and [enable] never answer
    Forbidden to an Admin, nor, when the entity is loaded by id, to the
    caller whose id is the target id. *)
Theorem permitted_is_never_forbidden (this : UserService.t) (op : Operation.t)
    (userId : Z) (U : RequestUser.t) (rows : Table) :
  Operation.onUser op = true ->
  (loadsById op = true /\ RequestUser.id U = userId) \/
  RequestUser.roles U = Admin ->
  fst (Operation.run this op userId U rows) <> Some ForbiddenException.
Proof.
  intros Hop HU.
  assert (Hperm : forall e, Operation.loaded this op userId rows = Some e ->
                    UserService.hasPermissions (id e) U = true).
  { intros e He. apply hasPermissions_true. destruct HU as [[Hby Hid]|Hadmin].
    - left. destruct op as [[cr|]| | | | | | |]; try discriminate;
        destruct (lookup_Some _ _ _ He) as [-> _]; symmetry; exact Hid.
    - right. exact Hadmin. }
  clear HU.
  destruct op as [[cr|]| | | | p | | |]; try discriminate Hop; clear Hop;
    unfold Operation.run, Operation.loaded in *.
  - rewrite get_getOne. unfold UserService.catchUndefined in Hperm.
    destruct (UserService.getOne this rows _) as [e|err]; [|discriminate].
    rewrite (Hperm e eq_refl). destruct (isActive e); discriminate.
  - rewrite get_lookup. destruct (lookup rows userId) as [e|]; [|discriminate].
    rewrite (Hperm e eq_refl). destruct (isActive e); discriminate.
  - rewrite update_lookup. destruct (lookup rows userId) as [e|]; [|discriminate].
    rewrite (Hperm e eq_refl). destruct (isActive e); discriminate.
  - rewrite delete_lookup. destruct (lookup rows userId) as [e|]; [|discriminate].
    rewrite (Hperm e eq_refl). destruct (isActive e); discriminate.
  - rewrite disable_lookup. destruct (lookup rows userId) as [e|]; [|discriminate].
    rewrite (Hperm e eq_refl). destruct (isActive e); discriminate.
  - rewrite enable_lookup. destruct (lookup rows userId) as [e|]; [|discriminate].
    rewrite (Hperm e eq_refl). destruct (isActive e); discriminate.
Qed.

Lemma permitted_is_never_forbidden_witness :
  fst (Operation.run Scenario.service Operation.Delete 1 Scenario.owner Scenario.rows)
    <> Some ForbiddenException /\
  fst (Operation.run Scenario.service (Operation.Get (Some Scenario.emptyRequest)) 1
         Scenario.admin Scenario.rows) <> Some ForbiddenException.
Proof.
  split.
  - apply (permitted_is_never_forbidden Scenario.service Operation.Delete 1
             Scenario.owner Scenario.rows eq_refl).
    left. split; reflexivity.
  - apply (permitted_is_never_forbidden Scenario.service
             (Operation.Get (Some Scenario.emptyRequest)) 1
             Scenario.admin Scenario.rows eq_refl).
    right. reflexivity.
Defined.

(** ** Inactive and deleted users *)

(** The listings on a user that the lookup finds inactive. *)
Lemma listing_inactive (this : UserService.t) (op : Operation.t) (userId : Z)
    (U : RequestUser.t) (rows : Table) (R : UserEntity.t) :
  isListing op = true ->
  lookup rows userId = Some R -> isActive R = false ->
  Operation.run this op userId U rows =
  (Some (EntityNotFoundException userId (Some "UserEntity")), rows).
Proof.
  intros Hop HR Hact.
  destruct op as [cr|cr|cr|cr| p | | |]; try discriminate Hop;
    unfold Operation.run; unfold_service; rewrite HR, Hact; reflexivity.
Qed.

(** X4. An inactive user can be neither updated nor deleted, and none of its
    listings is given out, whoever calls, the user itself and an Admin
    included: [update] and [delete] reject with NotFound, as the three
    listings do with or without a CRUD request, and the rows stay as they
    are. *)
Theorem inactive_user_is_out_of_reach (this : UserService.t) (userId : Z)
    (U : RequestUser.t) (rows : Table) (R : UserEntity.t) :
  lookup rows userId = Some R -> isActive R = false ->
  (forall payload,
     UserService.update userId U payload rows =
       (Rejected (EntityNotFoundException userId None), rows)) /\
  UserService.delete userId U rows =
    (Rejected (EntityNotFoundException userId None), rows) /\
  (forall crudRequest,
     UserService.getAddressesByUserId this userId U crudRequest rows =
       (Rejected (EntityNotFoundException userId (Some "UserEntity")), rows) /\
     UserService.getProductsByUserId this userId crudRequest rows =
       (Rejected (EntityNotFoundException userId (Some "UserEntity")), rows) /\
     UserService.getOrdersByUserId this userId U crudRequest rows =
       (Rejected (EntityNotFoundException userId (Some "UserEntity")), rows)).
Proof.
  intros HR Hact. repeat apply conj.
  - intros payload. rewrite update_lookup, HR, Hact. reflexivity.
  - rewrite delete_lookup, HR, Hact. reflexivity.
  - intros crudRequest. repeat apply conj; unfold_service;
      rewrite HR, Hact; reflexivity.
Qed.

Lemma inactive_user_is_out_of_reach_witness :
  UserService.delete 2 Scenario.admin Scenario.rows =
    (Rejected (EntityNotFoundException 2 None), Scenario.rows) /\
  UserService.getProductsByUserId Scenario.service 2
      (Some Scenario.emptyRequest) Scenario.rows =
    (Rejected (EntityNotFoundException 2 (Some "UserEntity")), Scenario.rows).
Proof.
  destruct (inactive_user_is_out_of_reach Scenario.service 2 Scenario.admin
              Scenario.rows Scenario.bob eq_refl eq_refl)
    as [_ [Hdelete Hlist]].
  destruct (Hlist (Some Scenario.emptyRequest)) as [_ [Hproducts _]].
  split; assumption.
Defined.

(** Every operation that loads by id rejects with NotFound on an id that
    the lookup does not find. *)
Lemma absent_rejects (this : UserService.t) (op : Operation.t) (userId : Z)
    (U : RequestUser.t) (rows : Table) :
  loadsById op = true -> lookup rows userId = None ->
  exists entity,
    Operation.run this op userId U rows =
    (Some (EntityNotFoundException userId entity), rows).
Proof.
  intros Hop Hnone.
  destruct op as [[cr|]|cr|cr|cr| p | | |]; try discriminate Hop;
    unfold Operation.run; unfold_service; rewrite Hnone; cbn;
    eexists; reflexivity.
Qed.

(** X5. [delete] of an active user by a permitted caller resolves and leaves
    exactly the rows with another id. After it no row has the id, and every
    operation that loads by id rejects with NotFound for every caller:
    [enable] does not bring a deleted user back. *)
Theorem delete_removes_user (this : UserService.t) (userId : Z)
    (U : RequestUser.t) (rows : Table) (R : UserEntity.t) :
  lookup rows userId = Some R -> isActive R = true ->
  RequestUser.id U = userId \/ RequestUser.roles U = Admin ->
  exists rows',
    UserService.delete userId U rows = (Resolved tt, rows') /\
    (forall e, In e rows' <-> In e rows /\ id e <> userId) /\
    lookup rows' userId = None /\
    (forall op V, loadsById op = true ->
       exists entity,
         Operation.run this op userId V rows' =
         (Some (EntityNotFoundException userId entity), rows')).
Proof.
  intros HR Hact HU.
  assert (Hperm : UserService.hasPermissions (id R) U = true).
  { apply hasPermissions_true. destruct (lookup_Some _ _ _ HR) as [Hid _].
    destruct HU; [left; congruence | right; assumption]. }
  exists (snd (UserEntity.delete userId rows)).
  assert (Hnone : lookup (snd (UserEntity.delete userId rows)) userId = None).
  { rewrite lookup_delete, Z.eqb_refl. reflexivity. }
  split; [rewrite delete_lookup, HR, Hact, Hperm; reflexivity|].
  split.
  - intros e. unfold UserEntity.delete. cbn [snd]. rewrite filter_In.
    rewrite negb_true_iff, Z.eqb_neq. reflexivity.
  - split; [exact Hnone|].
    intros op V Hop. apply absent_rejects; assumption.
Qed.

Lemma delete_removes_user_witness :
  exists rows',
    UserService.delete 1 Scenario.owner Scenario.rows = (Resolved tt, rows') /\
    lookup rows' 1 = None /\
    exists entity,
      Operation.run Scenario.service Operation.Enable 1 Scenario.admin rows' =
      (Some (EntityNotFoundException 1 entity), rows').
Proof.
  destruct (delete_removes_user Scenario.service 1 Scenario.owner Scenario.rows
              Scenario.alice eq_refl eq_refl (or_introl eq_refl))
    as [rows' [Hdelete [_ [Hnone Hafter]]]].
  exists rows'. split; [exact Hdelete|]. split; [exact Hnone|].
  exact (Hafter Operation.Enable Scenario.admin eq_refl).
Defined.

(** ** Other users *)

(** X6. A call on one user id leaves the lookup of every other id as it
    was: no operation of the service reaches the row of another user. *)
Theorem other_users_untouched (this : UserService.t) (op : Operation.t)
    (userId other : Z) (U : RequestUser.t) (rows : Table) :
  other <> userId ->
  lookup (snd (Operation.run this op userId U rows)) other = lookup rows other.
Proof.
  intros Hother.
  pose proof (reads_keep_rows this op userId U rows) as Hread.
  destruct op as [cr|cr|cr|cr| p | | |];
    try (rewrite Hread; reflexivity); clear Hread;
    unfold Operation.run; rewrite snd_settle.
  - rewrite update_lookup.
    destruct (lookup rows userId) as [e|]; [|reflexivity].
    destruct (isActive e);
      [destruct (UserService.hasPermissions (id e) U)|]; try reflexivity.
    apply lookup_update_other; [reflexivity | exact Hother].
  - rewrite delete_lookup.
    destruct (lookup rows userId) as [e|]; [|reflexivity].
    destruct (isActive e);
      [destruct (UserService.hasPermissions (id e) U)|]; try reflexivity.
    rewrite lookup_delete.
    destruct (other =? userId) eqn:Ho; [|reflexivity].
    apply Z.eqb_eq in Ho. contradiction.
  - rewrite disable_lookup.
    destruct (lookup rows userId) as [e|]; [|reflexivity].
    destruct (isActive e);
      [destruct (UserService.hasPermissions (id e) U)|]; try reflexivity.
    apply lookup_update_other; [reflexivity | exact Hother].
  - rewrite enable_lookup.
    destruct (lookup rows userId) as [e|]; [|reflexivity].
    destruct (isActive e);
      [|destruct (UserService.hasPermissions (id e) U)]; try reflexivity.
    apply lookup_update_other; [reflexivity | exact Hother].
Qed.

Lemma other_users_untouched_witness :
  lookup (snd (Operation.run Scenario.service Operation.Delete 1 Scenario.admin
                 Scenario.rows)) 2 = Some Scenario.bob.
Proof.
  rewrite (other_users_untouched Scenario.service Operation.Delete 1 2
             Scenario.admin Scenario.rows); [reflexivity | lia].
Defined.

(** ** Unique ids *)

Lemma unique_row (rows : Table) (e R : UserEntity.t) :
  NoDup (map id rows) -> In e rows -> In R rows -> id e = id R -> e = R.
Proof.
  induction rows as [|x rows IH]; cbn; [tauto|].
  intros Hnd He HR Hid. inversion Hnd as [|i l Hnotin Hrest]; subst.
  destruct He as [->|He], HR as [->|HR].
  - reflexivity.
  - exfalso. apply Hnotin. rewrite Hid. apply in_map. exact HR.
  - exfalso. apply Hnotin. rewrite <- Hid. apply in_map. exact He.
  - apply IH; assumption.
Qed.

Lemma NoDup_map_filter {A B : Type} (f : A -> B) (keep : A -> bool) (l : list A) :
  NoDup (map f l) -> NoDup (map f (filter keep l)).
Proof.
  induction l as [|a l IH]; cbn; [tauto|].
  intros Hnd. inversion Hnd as [|i l' Hnotin Hrest]; subst.
  destruct (keep a); cbn; [|apply IH; exact Hrest].
  constructor; [|apply IH; exact Hrest].
  intros Hin. apply Hnotin. apply in_map_iff in Hin.
  destruct Hin as [x [Hx Hin]]. apply filter_In in Hin.
  apply in_map_iff. exists x. tauto.
Qed.

Lemma update_resolves (userId : Z) (p : Partial) (rows : Table) :
  UserEntity.update userId p rows =
  (Resolved tt, snd (UserEntity.update userId p rows)).
Proof. reflexivity. Qed.

(** Writing the flag and writing it back, where the id has one row. *)
Lemma update_isActive_back (userId : Z) (rows : Table) (R : UserEntity.t) :
  NoDup (map id rows) -> lookup rows userId = Some R ->
  snd (UserEntity.update userId (isActivePartial (isActive R))
         (snd (UserEntity.update userId (isActivePartial (negb (isActive R))) rows)))
  = rows.
Proof.
  intros Hnd HR. rewrite !update_isActive_rows. cbn [snd].
  rewrite map_map. rewrite <- (map_id rows) at 2.
  apply map_ext_in. intros e He.
  destruct (lookup_Some _ _ _ HR) as [Hid HinR].
  destruct (id e =? userId) eqn:Heq; cbn [id].
  - rewrite Heq. apply Z.eqb_eq in Heq.
    assert (e = R) by (apply (unique_row rows); congruence).
    subst e. destruct R; reflexivity.
  - rewrite Heq. reflexivity.
Qed.

(** X7. Where no two rows have the same id, [disable] followed by [enable]
    by a permitted caller gives back the rows as they were before, and so
    does [enable] followed by [disable] on an inactive user: the two
    transitions write the flag and nothing else. *)
Theorem disable_enable_restore_rows (userId : Z) (U : RequestUser.t)
    (rows : Table) (R : UserEntity.t) :
  NoDup (map id rows) ->
  lookup rows userId = Some R ->
  RequestUser.id U = userId \/ RequestUser.roles U = Admin ->
  (isActive R = true ->
   exists rows',
     UserService.disable userId U rows = (Resolved tt, rows') /\
     UserService.enable userId U rows' = (Resolved tt, rows)) /\
  (isActive R = false ->
   exists rows',
     UserService.enable userId U rows = (Resolved tt, rows') /\
     UserService.disable userId U rows' = (Resolved tt, rows)).
Proof.
  intros Hnd HR HU.
  assert (Hperm : UserService.hasPermissions (id R) U = true).
  { apply hasPermissions_true. destruct (lookup_Some _ _ _ HR) as [Hid _].
    destruct HU; [left; congruence | right; assumption]. }
  pose proof (update_isActive_back userId rows R Hnd HR) as Hback.
  split; intros Hact; rewrite Hact in Hback; cbn [negb] in Hback.
  - exists (snd (UserEntity.update userId (isActivePartial false) rows)).
    split; [rewrite disable_lookup, HR, Hact, Hperm; reflexivity|].
    rewrite enable_lookup, (lookup_update_isActive userId false rows R HR).
    cbn [isActive id]. rewrite Hperm.
    rewrite update_resolves, Hback. reflexivity.
  - exists (snd (UserEntity.update userId (isActivePartial true) rows)).
    split; [rewrite enable_lookup, HR, Hact, Hperm; reflexivity|].
    rewrite disable_lookup, (lookup_update_isActive userId true rows R HR).
    cbn [isActive id]. rewrite Hperm.
    rewrite update_resolves, Hback. reflexivity.
Qed.

Lemma disable_enable_restore_rows_witness :
  exists rows',
    UserService.disable 1 Scenario.admin Scenario.rows = (Resolved tt, rows') /\
    UserService.enable 1 Scenario.admin rows' = (Resolved tt, Scenario.rows).
Proof.
  assert (Hnd : NoDup (map id Scenario.rows)).
  { cbn. repeat constructor; cbn; intuition lia. }
  destruct (disable_enable_restore_rows 1 Scenario.admin Scenario.rows
              Scenario.alice Hnd eq_refl (or_intror eq_refl)) as [Hactive _].
  exact (Hactive eq_refl).
Defined.

(** X8. No operation on a user id gives two rows the same id: where the ids
    of the rows are pairwise different before a call, they are after it. *)
Theorem unique_ids_preserved (this : UserService.t) (op : Operation.t)
    (userId : Z) (U : RequestUser.t) (rows : Table) :
  NoDup (map id rows) ->
  NoDup (map id (snd (Operation.run this op userId U rows))).
Proof.
  intros Hnd.
  pose proof (run_keeps_ids this op userId U rows) as Hids.
  destruct op as [cr|cr|cr|cr| p | | |]; try (rewrite Hids; exact Hnd).
  clear Hids. unfold Operation.run. rewrite snd_settle, delete_lookup.
  destruct (lookup rows userId) as [e|]; [|exact Hnd].
  destruct (isActive e);
    [destruct (UserService.hasPermissions (id e) U)|]; try exact Hnd.
  unfold UserEntity.delete. cbn [snd]. apply NoDup_map_filter. exact Hnd.
Qed.

Lemma unique_ids_preserved_witness :
  NoDup (map id (snd (Operation.run Scenario.service Operation.Delete 1
                        Scenario.owner Scenario.rows))).
Proof.
  apply unique_ids_preserved.
  cbn. repeat constructor; cbn; intuition lia.
Defined.

(** ** The listings *)

(** X9. A listing that is called without a CRUD request never resolves and
    writes nothing: it rejects with NotFound or Forbidden as its checks say,
    and once they pass, on an active user and (for addresses and orders) a
    permitted caller, it rejects with a TypeError, for the request is read
    though it is not there. *)
Theorem listing_without_request (this : UserService.t) (userId : Z)
    (U : RequestUser.t) (rows : Table) :
  (exists e, UserService.getAddressesByUserId this userId U None rows =
               (Rejected e, rows)) /\
  (exists e, UserService.getProductsByUserId this userId None rows =
               (Rejected e, rows)) /\
  (exists e, UserService.getOrdersByUserId this userId U None rows =
               (Rejected e, rows)) /\
  (forall R, lookup rows userId = Some R -> isActive R = true ->
     UserService.getProductsByUserId this userId None rows =
       (Rejected TypeError, rows) /\
     (UserService.hasPermissions userId U = true ->
      UserService.getAddressesByUserId this userId U None rows =
        (Rejected TypeError, rows) /\
      UserService.getOrdersByUserId this userId U None rows =
        (Rejected TypeError, rows))).
Proof.
  repeat apply conj.
  - unfold_service. destruct (lookup rows userId) as [e|]; [|eexists; reflexivity].
    by_cases_on_entity e; eexists; reflexivity.
  - unfold_service. destruct (lookup rows userId) as [e|]; [|eexists; reflexivity].
    destruct (isActive e); eexists; reflexivity.
  - unfold_service. destruct (lookup rows userId) as [e|]; [|eexists; reflexivity].
    by_cases_on_entity e; eexists; reflexivity.
  - intros R HR Hact. split.
    + unfold_service. rewrite HR, Hact. reflexivity.
    + intros Hperm. rewrite <- (hasPermissions_lookup rows userId R U HR) in Hperm.
      split; unfold_service; rewrite HR, Hact, Hperm; reflexivity.
Qed.

Lemma listing_without_request_witness :
  UserService.getAddressesByUserId Scenario.service 1 Scenario.owner None
      Scenario.rows = (Rejected TypeError, Scenario.rows) /\
  UserService.getProductsByUserId Scenario.service 1 None Scenario.rows =
    (Rejected TypeError, Scenario.rows).
Proof.
  destruct (listing_without_request Scenario.service 1 Scenario.owner Scenario.rows)
    as [_ [_ [_ Hpass]]].
  destruct (Hpass Scenario.alice eq_refl eq_refl) as [Hproducts Hothers].
  destruct (Hothers eq_refl) as [Haddresses _].
  split; assumption.
Defined.

(** X10. With a CRUD request, the listings of addresses and of orders answer
    as [get] on the user does: where [get] rejects with Forbidden they
    reject with Forbidden, where it rejects with NotFound they reject with
    NotFound, and where it resolves they answer what the listing service
    answers, be it a rejection, on the request that has the conditions of
    the caller followed by the condition that [userId] equals the id. *)
Theorem listings_follow_get (this : UserService.t) (userId : Z)
    (U : RequestUser.t) (crudRequest : CrudRequest.t) (rows : Table) :
  let delegated :=
    {| CrudRequest.parsed_search_and :=
         CrudRequest.parsed_search_and crudRequest ++
         [ {| CrudRequest.field := "userId"; CrudRequest.operator := "$eq";
              CrudRequest.value := CrudRequest.VNum userId |} ] |} in
  (forall R, UserService.get this userId U None rows = (Resolved R, rows) ->
     UserService.getAddressesByUserId this userId U (Some crudRequest) rows =
       (UserService.addressService_getMany this delegated, rows) /\
     UserService.getOrdersByUserId this userId U (Some crudRequest) rows =
       (UserService.orderService_getMany this delegated, rows)) /\
  (UserService.get this userId U None rows = (Rejected ForbiddenException, rows) ->
     UserService.getAddressesByUserId this userId U (Some crudRequest) rows =
       (Rejected ForbiddenException, rows) /\
     UserService.getOrdersByUserId this userId U (Some crudRequest) rows =
       (Rejected ForbiddenException, rows)) /\
  (UserService.get this userId U None rows =
     (Rejected (EntityNotFoundException userId None), rows) ->
     UserService.getAddressesByUserId this userId U (Some crudRequest) rows =
       (Rejected (EntityNotFoundException userId (Some "UserEntity")), rows) /\
     UserService.getOrdersByUserId this userId U (Some crudRequest) rows =
       (Rejected (EntityNotFoundException userId (Some "UserEntity")), rows)).
Proof.
  intros delegated.
  rewrite get_lookup, getAddressesByUserId_guards, getOrdersByUserId_guards.
  unfold guardedListing.
  destruct (lookup rows userId) as [e|].
  - destruct (isActive e); cbn [negb orb].
    + destruct (UserService.hasPermissions (id e) U);
        repeat apply conj; try intros R H; try intros H;
        try discriminate H; split; reflexivity.
    + repeat apply conj; try intros R H; try intros H;
        try discriminate H; split; reflexivity.
  - repeat apply conj; try intros R H; try intros H;
      try discriminate H; split; reflexivity.
Qed.

Lemma listings_follow_get_witness :
  UserService.getOrdersByUserId Scenario.service 1 Scenario.owner
      (Some Scenario.emptyRequest) Scenario.rows = (Resolved [], Scenario.rows) /\
  UserService.getAddressesByUserId Scenario.service 2 Scenario.bobUser
      (Some Scenario.emptyRequest) Scenario.rows =
    (Rejected (EntityNotFoundException 2 (Some "UserEntity")), Scenario.rows).
Proof.
  destruct (listings_follow_get Scenario.service 1 Scenario.owner
              Scenario.emptyRequest Scenario.rows) as [Hresolved _].
  destruct (Hresolved Scenario.alice eq_refl) as [_ Horders].
  destruct (listings_follow_get Scenario.service 2 Scenario.bobUser
              Scenario.emptyRequest Scenario.rows) as [_ [_ Hnotfound]].
  destruct (Hnotfound eq_refl) as [Haddresses _].
  split; assumption.
Defined.

(** ** The caller counts through the ownership check alone *)

(** X11. Two callers that fare alike in the ownership check on the target
    id get the same answer and leave the same rows, in every operation that
    loads the entity by id: what else the caller is plays no part. *)
Theorem same_permission_same_outcome (this : UserService.t) (op : Operation.t)
    (userId : Z) (U V : RequestUser.t) (rows : Table) :
  loadsById op = true ->
  UserService.hasPermissions userId U = UserService.hasPermissions userId V ->
  Operation.run this op userId U rows = Operation.run this op userId V rows.
Proof.
  intros Hop Hsame.
  destruct op as [[cr|]|cr|cr|cr| p | | |]; try discriminate Hop; clear Hop;
    unfold Operation.run; f_equal;
    unfold UserService.get, UserService.update, UserService.delete,
      UserService.disable, UserService.enable,
      UserService.getAddressesByUserId, UserService.getProductsByUserId,
      UserService.getOrdersByUserId, bind, findOne;
    destruct (lookup rows userId) as [e|] eqn:He; try reflexivity;
    rewrite ?(hasPermissions_lookup rows userId e U He),
            ?(hasPermissions_lookup rows userId e V He), ?Hsame;
    reflexivity.
Qed.

Lemma same_permission_same_outcome_witness :
  Operation.run Scenario.service Operation.Disable 1 Scenario.stranger Scenario.rows =
  Operation.run Scenario.service Operation.Disable 1 Scenario.bobUser Scenario.rows.
Proof.
  apply same_permission_same_outcome; reflexivity.
Defined.

(** ** What a rejection tells *)

(** The answer of [disable] to a caller without permission, by the lifecycle
    state of the id. *)
Lemma disable_answer (userId : Z) (V : RequestUser.t) (rows : Table) :
  UserService.hasPermissions userId V = false ->
  UserService.disable userId V rows =
  (Rejected
     match Lifecycle.status rows userId with
     | Lifecycle.Deleted => EntityNotFoundException userId None
     | Lifecycle.Inactive => EntityAlreadyDisabledException userId "UserEntity"
     | Lifecycle.Active => ForbiddenException
     end, rows).
Proof.
  intros Hperm. rewrite disable_lookup. unfold Lifecycle.status.
  destruct (lookup rows userId) as [e|] eqn:He; [|reflexivity].
  rewrite (hasPermissions_lookup rows userId e V He), Hperm.
  destruct (isActive e); reflexivity.
Qed.

(** X12. To a caller without permission, [disable] answers NotFound,
    AlreadyDisabled or Forbidden as the id is deleted, inactive or active,
    and writes nothing: on two tables the caller gets the same exception
    exactly when the id is in the same lifecycle state in both. *)
Theorem disable_answer_tells_state (userId : Z) (V : RequestUser.t)
    (rows1 rows2 : Table) :
  UserService.hasPermissions userId V = false ->
  snd (UserService.disable userId V rows1) = rows1 /\
  (fst (UserService.disable userId V rows1) =
   fst (UserService.disable userId V rows2) <->
   Lifecycle.status rows1 userId = Lifecycle.status rows2 userId).
Proof.
  intros Hperm. rewrite !(disable_answer userId V _ Hperm). cbn [fst snd].
  split; [reflexivity|].
  destruct (Lifecycle.status rows1 userId), (Lifecycle.status rows2 userId);
    split; intros H; try reflexivity; discriminate H.
Qed.

Lemma disable_answer_tells_state_witness :
  fst (UserService.disable 1 Scenario.stranger Scenario.rows) =
  fst (UserService.disable 1 Scenario.stranger [Scenario.alice]).
Proof.
  apply (proj2 (disable_answer_tells_state 1 Scenario.stranger Scenario.rows
                  [Scenario.alice] eq_refl)).
  reflexivity.
Defined.

(** ** The gate of the shopping-cart endpoints *)

Section CartGate.
Variables Store UpdateShoppingCartPayload : Type.
Variable this : ShoppingCartController.t Store UpdateShoppingCartPayload.

(** X14. A caller whose role is not Admin is refused by the update, disable
    and enable endpoints with the store untouched, whatever the service
    would do; the delete endpoint admits the three roles and hands the
    caller over to the service. *)
Theorem cart_gate (requestUser : RequestUser.t) (shoppingCartId : Z)
    (payload : UpdateShoppingCartPayload) (s : Store) :
  (RequestUser.roles requestUser <> Admin ->
   (exists e, ShoppingCartController.update this requestUser shoppingCartId
                payload s = (Rejected e, s)) /\
   (exists e, ShoppingCartController.disable this requestUser shoppingCartId s =
                (Rejected e, s)) /\
   (exists e, ShoppingCartController.enable this requestUser shoppingCartId s =
                (Rejected e, s))) /\
  ShoppingCartController.delete this requestUser shoppingCartId =
    ShoppingCartService.delete (ShoppingCartController.shoppingCartService this)
      shoppingCartId requestUser.
Proof.
  unfold ShoppingCartController.update, ShoppingCartController.disable,
    ShoppingCartController.enable, ShoppingCartController.delete, ProtectTo.
  destruct (RequestUser.roles requestUser); cbn.
  - split; [intros H; contradiction H; reflexivity | reflexivity].
  - split; [intros _; repeat split; eexists; reflexivity | reflexivity].
  - split; [intros _; repeat split; eexists; reflexivity | reflexivity].
Qed.
End CartGate.

Lemma cart_gate_witness :
  exists e,
    ShoppingCartController.disable Scenario.cartController Scenario.stranger 4
      [Scenario.cart] = (Rejected e, [Scenario.cart]).
Proof.
  destruct (cart_gate (list Resource.t) unit Scenario.cartController
              Scenario.stranger 4 tt [Scenario.cart]) as [Hrefused _].
  assert (Hrole : RequestUser.roles Scenario.stranger <> Admin) by discriminate.
  destruct (Hrefused Hrole) as [_ [Hdisable _]].
  exact Hdisable.
Defined.
